(** * DocumentMind: the document processing pipeline

    A shallow embedding of the Django application's pipeline code:

    - [documents/extraction.py]      text extraction and length limits,
    - [summarization/services.py]    the summarization service,
    - [documents/summary_service.py] the helper used by the views,
    - [documents/models.py]          the Document and Summary tables,
    - [documents/views.py]           upload, status and retry endpoints,
    - [summarization/async_tasks.py] the Celery task.

    Python [str] values are lists of Unicode code points, Python [int]s are
    [Z], the database, the Celery queue and the calls made to the
    summarization model are an explicit state which the operations thread
    through a state-and-exception monad. *)

From Stdlib Require Import ZArith NArith Ascii String Strings.Byte.
From stdpp Require Import base option list gmap.

Local Open Scope Z_scope.

(** ** Python strings *)

Module Py.

(** A character is a code point; a [str] is a sequence of them, so that
    [len] is [length] and [s[:n]] cuts between characters. *)
Definition char : Type := N.
Definition str : Type := list char.

(** A literal of the source, written as a Rocq string. *)
Definition lit (s : string) : str :=
  map N_of_ascii (list_ascii_of_string s).

Definition len (s : str) : Z := Z.of_nat (length s).

(** [str.isspace] for one character: the code points CPython lists as
    whitespace. *)
Definition isspace (c : char) : bool :=
  ((9 <=? c) && (c <=? 13) || (28 <=? c) && (c <=? 32)
   || (c =? 133) || (c =? 160) || (c =? 5760)
   || (8192 <=? c) && (c <=? 8202)
   || (c =? 8232) || (c =? 8233) || (c =? 8239) || (c =? 8287)
   || (c =? 12288))%N.

Fixpoint lstrip (s : str) : str :=
  match s with
  | c :: s' => if isspace c then lstrip s' else s
  | [] => []
  end.

Definition rstrip (s : str) : str := reverse (lstrip (reverse s)).

(** [s.strip()] *)
Definition strip (s : str) : str := rstrip (lstrip s).

(** [s[:n]] for any integer [n]: a negative bound counts from the end. *)
Definition slice_to (n : Z) (s : str) : str :=
  if 0 <=? n then take (Z.to_nat n) s
  else take (Z.to_nat (len s + n)) s.

(** [s.endswith(suffix)] *)
Definition endswith (s suffix : str) : bool :=
  bool_decide (drop (length s - length suffix) s = suffix).

(** [s.split(sep)] for a one-character separator: every occurrence
    cuts, empty segments are kept, the result is never empty. *)
Fixpoint split (sep : char) (s : str) : list str :=
  match s with
  | [] => [[]]
  | c :: s' =>
      if (c =? sep)%N then [] :: split sep s'
      else match split sep s' with
           | seg :: rest => (c :: seg) :: rest
           | [] => [[c]]
           end
  end.

(** [sep.join(parts)] *)
Fixpoint join (sep : str) (parts : list str) : str :=
  match parts with
  | [] => []
  | [p] => p
  | p :: rest => p ++ sep ++ join sep rest
  end.

(** [str(n)] for an integer. *)
Fixpoint digits (fuel : nat) (n : N) (acc : str) : str :=
  match fuel with
  | O => acc
  | S fuel' =>
      let acc' := (48 + n mod 10)%N :: acc in
      if (n <? 10)%N then acc' else digits fuel' (n / 10)%N acc'
  end.

Definition of_N (n : N) : str := digits (S (N.to_nat (N.log2 n))) n [].

Definition of_Z (z : Z) : str :=
  if z <? 0 then lit "-" ++ of_N (Z.to_N (- z)) else of_N (Z.to_N z).

(** [bytes.decode('latin-1')]: every byte is the code point of its value. *)
Definition decode_latin1 (content : list byte) : str := map Byte.to_N content.

End Py.

Import Py.

(** ** Exceptions and the state-and-exception monad *)

(** The exception classes the pipeline distinguishes; [DoesNotExist] is
    [Document.DoesNotExist] and [Exception] stands for any other subclass
    of Python's [Exception], the classes an [except Exception] catches. *)
Inductive exn_class : Type :=
  | ExtractionError
  | DoesNotExist
  | IntegrityError
  | ValidationError
  | AttributeError
  | Exception.

(** An exception: its class and [str(e)]. *)
Record exn : Type := { exn_type : exn_class; exn_str : str }.

#[global] Instance exn_class_eq_dec : EqDecision exn_class.
Proof. solve_decision. Defined.

Inductive result (A : Type) : Type :=
  | Ok (a : A)
  | Raise (e : exn).
Arguments Ok {A} a.
Arguments Raise {A} e.

#[global] Instance result_ret : MRet result := fun A a => Ok a.
#[global] Instance result_bind : MBind result :=
  fun A B f m => match m with Ok a => f a | Raise e => Raise e end.

(** A computation over a state [S] that returns or raises; what was
    written to the state before a raise stays written. *)
Definition M (S A : Type) : Type := S -> result A * S.

#[global] Instance M_ret {S} : MRet (M S) := fun A a s => (Ok a, s).
#[global] Instance M_bind {S} : MBind (M S) :=
  fun A B f m s =>
    match m s with
    | (Ok a, s') => f a s'
    | (Raise e, s') => (Raise e, s')
    end.

Definition raise {S A} (e : exn) : M S A := fun s => (Raise e, s).

(** [try: body  except Exception as e: handler e] *)
Definition try_except {S A} (body : M S A) (handler : exn -> M S A) : M S A :=
  fun s =>
    match body s with
    | (Ok a, s') => (Ok a, s')
    | (Raise e, s') => handler e s'
    end.

(** ** Settings ([summarizer_backend/settings.py]) *)

(** The values read with [int(os.getenv(...))]: any integer can be
    configured. *)
Record Settings : Type := {
  SUMMARY_SHORT_MAX_LEN : Z;
  SUMMARY_SHORT_MIN_LEN : Z;
  SUMMARY_DETAILED_MAX_LEN : Z;
  SUMMARY_DETAILED_MIN_LEN : Z;
  MAX_DOCUMENT_SIZE_MB : Z;
  MAX_EXTRACT_CHAR : Z;
  AUTO_SUMMARY_MAX_CHAR : Z
}.

(** The defaults of the settings module. *)
Definition default_settings : Settings := {|
  SUMMARY_SHORT_MAX_LEN := 60;
  SUMMARY_SHORT_MIN_LEN := 15;
  SUMMARY_DETAILED_MAX_LEN := 180;
  SUMMARY_DETAILED_MIN_LEN := 60;
  MAX_DOCUMENT_SIZE_MB := 25;
  MAX_EXTRACT_CHAR := 60000;
  AUTO_SUMMARY_MAX_CHAR := 40000
|}.

(** ** Data model ([documents/models.py]) *)

(** A Django [UploadedFile]: its name, its size in bytes, its content. *)
Module UploadedFile.
Record t : Type := { name : str; size : Z; content : list byte }.
End UploadedFile.

Module Document.
Record t : Type := {
  id : Z;
  user : Z;
  original_filename : str;
  text_content : str
}.
End Document.

Module Summary.
Record t : Type := {
  id : Z;
  document : Z;          (* foreign key: [Document.id] *)
  short_summary : str;
  detailed_notes : str;
  status : str
}.

(** The keys of [STATUS_CHOICES]. *)
Definition STATUS_CHOICES : list str :=
  [lit "pending"; lit "processing"; lit "complete"; lit "failed"].

(** Attribute assignment on a model instance. *)
Definition set_status (v : str) (s : t) : t :=
  {| id := id s; document := document s; short_summary := short_summary s;
     detailed_notes := detailed_notes s; status := v |}.
Definition set_short_summary (v : str) (s : t) : t :=
  {| id := id s; document := document s; short_summary := v;
     detailed_notes := detailed_notes s; status := status s |}.
Definition set_detailed_notes (v : str) (s : t) : t :=
  {| id := id s; document := document s; short_summary := short_summary s;
     detailed_notes := v; status := status s |}.
End Summary.

#[global] Instance Summary_eq_dec : EqDecision Summary.t.
Proof. solve_decision. Defined.

(** One call of the summarization pipeline object:
    [pipeline(text, max_length=.., min_length=.., do_sample=False)]. *)
Record PipelineCall : Type := {
  call_text : str;
  call_max_length : Z;
  call_min_length : Z
}.

(** What the pipeline object answers, read at [[0]["summary_text"]]. *)
Definition Pipeline : Type := str -> Z -> Z -> result str.

(** The state the pipeline runs in: the two tables, their primary-key
    sequences, the messages sent to the Celery broker, whether the
    summarization pipeline has been built, and the calls made to it. *)
Record World : Type := {
  documents : gmap Z Document.t;       (* rows by primary key *)
  summaries : list Summary.t;          (* rows, newest first *)
  next_document_id : Z;
  next_summary_id : Z;
  celery_queue : list Z;               (* arguments of the queued tasks *)
  pipeline_cached : bool;              (* the [lru_cache] of [_get_pipeline] *)
  pipeline_calls : list PipelineCall
}.

Definition World0 : World := {|
  documents := ∅; summaries := []; next_document_id := 1;
  next_summary_id := 1; celery_queue := []; pipeline_cached := false;
  pipeline_calls := []
|}.

Definition set_documents (f : gmap Z Document.t -> gmap Z Document.t) (n : Z)
    (w : World) : World :=
  {| documents := f (documents w); summaries := summaries w;
     next_document_id := n; next_summary_id := next_summary_id w;
     celery_queue := celery_queue w; pipeline_cached := pipeline_cached w;
     pipeline_calls := pipeline_calls w |}.

Definition set_summaries (l : list Summary.t) (n : Z) (w : World) : World :=
  {| documents := documents w; summaries := l;
     next_document_id := next_document_id w; next_summary_id := n;
     celery_queue := celery_queue w; pipeline_cached := pipeline_cached w;
     pipeline_calls := pipeline_calls w |}.

Definition set_celery_queue (q : list Z) (w : World) : World :=
  {| documents := documents w; summaries := summaries w;
     next_document_id := next_document_id w;
     next_summary_id := next_summary_id w;
     celery_queue := q; pipeline_cached := pipeline_cached w;
     pipeline_calls := pipeline_calls w |}.

Definition set_pipeline (cached : bool) (calls : list PipelineCall)
    (w : World) : World :=
  {| documents := documents w; summaries := summaries w;
     next_document_id := next_document_id w;
     next_summary_id := next_summary_id w;
     celery_queue := celery_queue w; pipeline_cached := cached;
     pipeline_calls := calls |}.

(** A request as the views read it. A file found in [request.FILES] has a
    name, so the object is true in [if not file_obj]; whether the
    serializer accepts [request.data] is given by the environment. *)
Module Request.
Record t : Type := {
  FILES_file : option UploadedFile.t;   (* [request.FILES.get('file')] *)
  user : Z                              (* [request.user] *)
}.
End Request.

(** The body of a response. *)
Inductive Body : Type :=
  | Detail (detail : str)
  | Message (message : str)
  | DocumentData (doc : Document.t) (doc_summaries : list Summary.t)
  | SummaryData (document_id : Z) (status short_summary detailed_notes : str)
      (message : option str).

Record Response : Type := { data : Body; status_code : Z }.

(** ** The environment of the pipeline

    What the code obtains from its libraries: Python's [str.lower], the
    UTF-8 decoder, PyMuPDF, python-docx, the HuggingFace pipeline
    constructor and the serializer's validation. *)
Record Env : Type := {
  settings : Settings;
  str_lower : str -> str;
  decode_utf8 : list byte -> option str;
  (** [[page.get_text() for page in fitz.open(...)]], or what it raises *)
  fitz_page_texts : list byte -> result (list str);
  (** [[p.text for p in DocxDocument(stream).paragraphs]], or what it raises *)
  docx_paragraph_texts : list byte -> result (list str);
  (** [pipeline("summarization", model=...)], [None] when it raises *)
  transformers_pipeline : option Pipeline;
  (** [serializer.is_valid()] for the request's data *)
  serializer_is_valid : Request.t -> bool
}.

Section Pipeline.

Context (env : Env).

(** ** Text extraction ([documents/extraction.py]) *)

Definition _read_txt (stream : UploadedFile.t) : str :=
  let content := UploadedFile.content stream in
  match decode_utf8 env content with
  | Some text => text
  | None => decode_latin1 content
  end.

Definition _read_pdf (stream : UploadedFile.t) : result str :=
  page_texts ← fitz_page_texts env (UploadedFile.content stream);
  mret (join (lit "
") page_texts).

Definition _read_docx (stream : UploadedFile.t) : result str :=
  texts ← docx_paragraph_texts env (UploadedFile.content stream);
  let paragraphs := filter (fun p => strip p <> []) texts in
  mret (join (lit "
") paragraphs).

(** [file_obj.size / (1024 * 1024) > MAX_DOCUMENT_SIZE_MB]: the division
    by a power of two is exact for sizes below 2^53, so the comparison is
    the one between integers. *)
Definition exceeds_size_limit (file_obj : UploadedFile.t) : bool :=
  UploadedFile.size file_obj >? MAX_DOCUMENT_SIZE_MB (settings env) * (1024 * 1024).

Definition extract_text (file_obj : UploadedFile.t) : result str :=
  let filename := str_lower env (UploadedFile.name file_obj) in
  if exceeds_size_limit file_obj then
    Raise {| exn_type := ExtractionError;
             exn_str := lit "File exceeds maximum size limit of "
                        ++ of_Z (MAX_DOCUMENT_SIZE_MB (settings env)) ++ lit "MB" |}
  else
    text ← (if endswith filename (lit ".pdf") then _read_pdf file_obj
            else if endswith filename (lit ".docx") then _read_docx file_obj
            else if endswith filename (lit ".txt") then Ok (_read_txt file_obj)
            else Raise {| exn_type := ExtractionError;
                          exn_str := lit "Unsupported file type. Supported formats: PDF, DOCX, TXT" |});
    let text := strip text in
    if len text >? MAX_EXTRACT_CHAR (settings env) then
      mret (slice_to (MAX_EXTRACT_CHAR (settings env)) text)
    else
      mret text.

(** ** The summarization service ([summarization/services.py]) *)

(** [SimpleFallback.__call__]: the first two sentences up to
    [max_length]. *)
Definition SimpleFallback : Pipeline :=
  fun text max_length min_length =>
    let sentences := take 2 (split 46%N (strip text)) in
    let result := slice_to max_length (join (lit ". ") sentences) in
    Ok result.

(** [_get_pipeline]: the HuggingFace pipeline, or the fallback when it
    cannot be built; the result is cached. *)
Definition _get_pipeline : M World Pipeline :=
  fun w =>
    (Ok (match transformers_pipeline env with
         | Some p => p
         | None => SimpleFallback
         end),
     set_pipeline true (pipeline_calls w) w).

(** One call of the pipeline object, recorded in [pipeline_calls]. *)
Definition call_pipeline (pipeline : Pipeline) (text : str)
    (max_length min_length : Z) : M World str :=
  fun w =>
    (pipeline text max_length min_length,
     set_pipeline (pipeline_cached w)
       (pipeline_calls w ++ [{| call_text := text; call_max_length := max_length;
                                call_min_length := min_length |}]) w).

(** [d.setdefault(k, v)] *)
Definition setdefault (k v : str) (d : gmap str str) : gmap str str :=
  match d !! k with
  | Some _ => d
  | None => <[k := v]> d
  end.

(** [[seg.strip() for seg in detailed_output.split('.') if seg.strip()]]
    rendered as a bulleted list. *)
Definition bullets_of (detailed_output : str) : str :=
  let sentences :=
    map strip (filter (fun seg => strip seg <> []) (split 46%N detailed_output)) in
  lit "- " ++ join (lit "
- ") sentences.

Definition summarize (text mode : str) : M World (gmap str str) :=
  pipeline ← _get_pipeline;
  let result : gmap str str := ∅ in
  let text := strip text in
  if bool_decide (text = []) then
    mret (<[lit "short_summary" := []]> (<[lit "detailed_notes" := []]> ∅))
  else
    result ← (if bool_decide (mode = lit "short" \/ mode = lit "both") then
                summary_output ← call_pipeline pipeline text
                    (SUMMARY_SHORT_MAX_LEN (settings env))
                    (SUMMARY_SHORT_MIN_LEN (settings env));
                mret (<[lit "short_summary" := summary_output]> result)
              else mret result);
    result ← (if bool_decide (mode = lit "detailed" \/ mode = lit "both") then
                detailed_output ← call_pipeline pipeline text
                    (SUMMARY_DETAILED_MAX_LEN (settings env))
                    (SUMMARY_DETAILED_MIN_LEN (settings env));
                mret (<[lit "detailed_notes" := bullets_of detailed_output]> result)
              else mret result);
    let result := if bool_decide (mode = lit "short")
                  then setdefault (lit "detailed_notes") [] result else result in
    let result := if bool_decide (mode = lit "detailed")
                  then setdefault (lit "short_summary") [] result else result in
    mret result.

(** ** [documents/summary_service.py] *)

(** [d.get(k, '')] *)
Definition dict_get (k : str) (d : gmap str str) : str := default [] (d !! k).

Definition generate_document_summaries (text : str) : M World (str * str) :=
  result ← summarize text (lit "both");
  mret (dict_get (lit "short_summary") result, dict_get (lit "detailed_notes") result).

(** ** The ORM calls the views make *)

(** [doc.summaries]: the rows whose foreign key is the document, in the
    model's ordering (newest first). *)
Definition doc_summaries (document_id : Z) (w : World) : list Summary.t :=
  filter (fun s => Summary.document s = document_id) (summaries w).

(** [doc.summaries.first()] *)
Definition summaries_first (doc : Document.t) : M World (option Summary.t) :=
  fun w => (Ok (head (doc_summaries (Document.id doc) w)), w).

Definition unique_violation : exn :=
  {| exn_type := IntegrityError;
     exn_str := lit "UNIQUE constraint failed: documents_summary.document_id" |}.

(** [Summary.objects.create(document=doc, ...)]: an INSERT, refused by the
    constraint [one_summary_per_document] when the document already has a
    row. *)
Definition Summary_objects_create (doc : Document.t)
    (short_summary detailed_notes status : str) : M World Summary.t :=
  fun w =>
    if bool_decide (doc_summaries (Document.id doc) w <> []) then
      (Raise unique_violation, w)
    else
      let s := {| Summary.id := next_summary_id w;
                  Summary.document := Document.id doc;
                  Summary.short_summary := short_summary;
                  Summary.detailed_notes := detailed_notes;
                  Summary.status := status |} in
      (Ok s, set_summaries (s :: summaries w) (next_summary_id w + 1) w).

(** The table after [UPDATE ... WHERE id = s.id]. *)
Definition update_row (s : Summary.t) (rows : list Summary.t) : list Summary.t :=
  map (fun r => if bool_decide (Summary.id r = Summary.id s) then s else r) rows.

(** [summary.save()]: an UPDATE of the row with the instance's primary
    key, an INSERT when there is no such row; both are refused when another
    row already belongs to the same document. *)
Definition Summary_save (s : Summary.t) : M World unit :=
  fun w =>
    if bool_decide (Exists (fun r => Summary.id r <> Summary.id s
                                     /\ Summary.document r = Summary.document s)
                           (summaries w)) then
      (Raise unique_violation, w)
    else if bool_decide (Exists (fun r => Summary.id r = Summary.id s) (summaries w)) then
      (Ok tt, set_summaries (update_row s (summaries w)) (next_summary_id w) w)
    else
      (Ok tt, set_summaries (s :: summaries w) (next_summary_id w) w).

(** [serializer.save(user=.., original_filename=.., text_content=..)]:
    the INSERT of the document row. *)
Definition serializer_save (user : Z) (original_filename text_content : str)
    : M World Document.t :=
  fun w =>
    let doc := {| Document.id := next_document_id w;
                  Document.user := user;
                  Document.original_filename := original_filename;
                  Document.text_content := text_content |} in
    (Ok doc, set_documents (insert (Document.id doc) doc) (next_document_id w + 1) w).

(** [serializer.is_valid(raise_exception=True)] *)
Definition is_valid (request : Request.t) : M World unit :=
  if serializer_is_valid env request then mret tt
  else raise {| exn_type := ValidationError; exn_str := lit "Invalid input." |}.

(** [serializer.data]: the document with its summaries as they are when
    the response is built. *)
Definition serializer_data (doc : Document.t) : M World Body :=
  fun w => (Ok (DocumentData doc (doc_summaries (Document.id doc) w)), w).

(** [self.get_queryset().filter(pk=pk).first()]: the user's own document
    with that key. *)
Definition get_queryset_first (request : Request.t) (pk : Z)
    : M World (option Document.t) :=
  fun w =>
    (Ok (match documents w !! pk with
         | Some doc => if bool_decide (Document.user doc = Request.user request)
                       then Some doc else None
         | None => None
         end), w).

(** [Document.objects.get(id=document_id)] *)
Definition Document_objects_get (document_id : Z) : M World Document.t :=
  fun w =>
    match documents w !! document_id with
    | Some doc => (Ok doc, w)
    | None => (Raise {| exn_type := DoesNotExist;
                        exn_str := lit "Document matching query does not exist." |}, w)
    end.

(** [generate_document_summary_async.delay(document_id)]: one message to
    the broker; the task itself runs later, in a worker. *)
Definition delay (document_id : Z) : M World unit :=
  fun w => (Ok tt, set_celery_queue (celery_queue w ++ [document_id]) w).

(** ** The views ([documents/views.py]) *)

Definition HTTP_200_OK : Z := 200.
Definition HTTP_201_CREATED : Z := 201.
Definition HTTP_400_BAD_REQUEST : Z := 400.
Definition HTTP_404_NOT_FOUND : Z := 404.

Definition generation_failed (e : exn) : str :=
  lit "Generation failed: " ++ exn_str e.

Definition create (request : Request.t) : M World Response :=
  match Request.FILES_file request with
  | None =>
      mret {| data := Detail (lit "Please provide a file to upload");
              status_code := HTTP_400_BAD_REQUEST |}
  | Some file_obj =>
      match extract_text file_obj with
      | Raise e =>
          if bool_decide (exn_type e = ExtractionError) then
            mret {| data := Detail (lit "Unable to process file: " ++ exn_str e);
                    status_code := HTTP_400_BAD_REQUEST |}
          else raise e
      | Ok extracted =>
          is_valid request;;
          doc ← serializer_save (Request.user request)
                  (UploadedFile.name file_obj) extracted;
          (if len extracted >? AUTO_SUMMARY_MAX_CHAR (settings env) then
             summary ← Summary_objects_create doc [] [] (lit "pending");
             delay (Document.id doc)
           else
             try_except
               ('(short_s, detailed) ← generate_document_summaries extracted;
                Summary_objects_create doc short_s detailed (lit "complete");;
                mret tt)
               (fun e =>
                  Summary_objects_create doc [] (generation_failed e) (lit "failed");;
                  mret tt));;
          body ← serializer_data doc;
          mret {| data := body; status_code := HTTP_201_CREATED |}
      end
  end.

Definition retrieve_summary (request : Request.t) (pk : Z) : M World Response :=
  doc ← get_queryset_first request pk;
  match doc with
  | None => mret {| data := Detail (lit "Not found"); status_code := HTTP_404_NOT_FOUND |}
  | Some doc =>
      summary ← summaries_first doc;
      match summary with
      | None => mret {| data := Detail (lit "Summary missing");
                        status_code := HTTP_404_NOT_FOUND |}
      | Some summary =>
          let message :=
            if bool_decide (Summary.status summary = lit "pending") then
              Some (lit "Summary generation queued. Please check back shortly.")
            else if bool_decide (Summary.status summary = lit "processing") then
              Some (lit "Summary is being generated. Please check back in a moment.")
            else if bool_decide (Summary.status summary = lit "failed") then
              Some (lit "Summary generation failed. You can retry using PATCH.")
            else None in
          mret {| data := SummaryData (Document.id doc) (Summary.status summary)
                            (Summary.short_summary summary)
                            (Summary.detailed_notes summary) message;
                  status_code := HTTP_200_OK |}
      end
  end.

Definition retry_summary (request : Request.t) (pk : Z) : M World Response :=
  doc ← get_queryset_first request pk;
  match doc with
  | None => mret {| data := Detail (lit "Not found"); status_code := HTTP_404_NOT_FOUND |}
  | Some doc =>
      summary ← summaries_first doc;
      match summary with
      | None => mret {| data := Detail (lit "Summary missing");
                        status_code := HTTP_404_NOT_FOUND |}
      | Some summary =>
          if bool_decide (Summary.status summary <> lit "failed") then
            mret {| data := Detail (lit "Summary is not in failed state");
                    status_code := HTTP_400_BAD_REQUEST |}
          else
            let summary := Summary.set_status (lit "pending") summary in
            let summary := Summary.set_short_summary [] summary in
            let summary := Summary.set_detailed_notes [] summary in
            Summary_save summary;;
            delay (Document.id doc);;
            mret {| data := Message (lit "Summary generation retried");
                    status_code := HTTP_200_OK |}
      end
  end.

(** ** The Celery task ([summarization/async_tasks.py]) *)

(** The task keeps the model instance in its local variable [summary],
    assigns to its attributes and saves it; the handler asks whether the
    variable is bound. A frame is that variable (unbound, [None] or an
    instance) together with the world. *)
Record Frame : Type := {
  local_summary : option (option Summary.t);
  world : World
}.

Definition lift_world {A} (m : M World A) : M Frame A :=
  fun fr =>
    let '(r, w) := m (world fr) in
    (r, {| local_summary := local_summary fr; world := w |}).

(** [summary = v] *)
Definition bind_summary (v : option Summary.t) : M Frame unit :=
  fun fr => (Ok tt, {| local_summary := Some v; world := world fr |}).

Definition no_attribute : exn :=
  {| exn_type := AttributeError;
     exn_str := lit "'NoneType' object has no attribute" |}.

(** [summary.<field> = v], an assignment to the instance in the local
    variable. *)
Definition setattr_summary (f : Summary.t -> Summary.t) : M Frame unit :=
  fun fr =>
    match local_summary fr with
    | Some (Some s) =>
        (Ok tt, {| local_summary := Some (Some (f s)); world := world fr |})
    | _ => (Raise no_attribute, fr)
    end.

(** [summary.save()] on the instance in the local variable. *)
Definition summary_save : M Frame unit :=
  fun fr =>
    match local_summary fr with
    | Some (Some s) => lift_world (Summary_save s) fr
    | _ => (Raise no_attribute, fr)
    end.

Definition no_pending_summary (document_id : Z) : str :=
  lit "No pending summary found for document " ++ of_Z document_id.

(** The [try] block. *)
Definition task_body (document_id : Z) : M Frame str :=
  doc ← lift_world (Document_objects_get document_id);
  summary ← lift_world (summaries_first doc);
  bind_summary summary;;
  match summary with
  | Some s =>
      if bool_decide (Summary.status s = lit "pending") then
        setattr_summary (Summary.set_status (lit "processing"));;
        summary_save;;
        '(short_s, detailed) ←
          lift_world (generate_document_summaries (Document.text_content doc));
        setattr_summary (Summary.set_short_summary short_s);;
        setattr_summary (Summary.set_detailed_notes detailed);;
        setattr_summary (Summary.set_status (lit "complete"));;
        summary_save;;
        mret (lit "Summary generated for document " ++ of_Z document_id)
      else mret (no_pending_summary document_id)
  | None => mret (no_pending_summary document_id)
  end.

(** The body of [except Exception as e]. *)
Definition mark_failed (document_id : Z) (e : exn) : M Frame str :=
  (fun fr =>
     match local_summary fr with
     | Some _ =>
         (setattr_summary (Summary.set_status (lit "failed"));;
          setattr_summary (Summary.set_detailed_notes (generation_failed e));;
          summary_save) fr
     | None => (Ok tt, fr)
     end);;
  mret (lit "Error generating summary for document " ++ of_Z document_id
        ++ lit ": " ++ exn_str e).

(** The two [except] clauses, in order. *)
Definition task_except (document_id : Z) (e : exn) : M Frame str :=
  if bool_decide (exn_type e = DoesNotExist) then
    mret (lit "Document " ++ of_Z document_id ++ lit " not found")
  else mark_failed document_id e.

Definition generate_document_summary_async (document_id : Z) : M World str :=
  fun w =>
    let '(r, fr) :=
      try_except (task_body document_id) (task_except document_id)
        {| local_summary := None; world := w |} in
    (r, world fr).

(** ** The operations on the state

    The endpoints routed in [documents/urls.py] and the task a worker
    runs for a delivered message. *)
Inductive Operation : Type :=
  | OpCreate (request : Request.t)
  | OpRetrieveSummary (request : Request.t) (pk : Z)
  | OpRetrySummary (request : Request.t) (pk : Z)
  | OpTask (document_id : Z).

(** The state an operation leaves, whether it returns or raises. *)
Definition run (op : Operation) (w : World) : World :=
  match op with
  | OpCreate request => snd (create request w)
  | OpRetrieveSummary request pk => snd (retrieve_summary request pk w)
  | OpRetrySummary request pk => snd (retry_summary request pk w)
  | OpTask document_id => snd (generate_document_summary_async document_id w)
  end.

End Pipeline.

(** ** Invariants of the tables *)

(** The constraint [one_summary_per_document]. *)
Definition one_summary_per_document (w : World) : Prop :=
  forall document_id : Z, (length (doc_summaries document_id w) <= 1)%nat.

(** What the database guarantees of the two tables: documents are stored
    under their own key, keys come from the sequences, summary keys are
    distinct, every summary belongs to a stored document, and the
    uniqueness constraint holds. *)
Record consistent (w : World) : Prop := {
  documents_keyed : forall k doc, documents w !! k = Some doc ->
                                  Document.id doc = k /\ k < next_document_id w;
  summaries_keyed : forall s, s ∈ summaries w -> Summary.id s < next_summary_id w;
  summaries_distinct : NoDup (map Summary.id (summaries w));
  summaries_owned : forall s, s ∈ summaries w ->
                              is_Some (documents w !! Summary.document s);
  summaries_unique : one_summary_per_document w
}.

(** ** Vocabulary of the statements *)

(** [t] is [s] without its leading and trailing whitespace. *)
Definition trimmed_of (s t : str) : Prop :=
  exists l r : str,
    s = l ++ t ++ r
    /\ Forall (fun c => isspace c = true) l
    /\ Forall (fun c => isspace c = true) r
    /\ (forall c, head t = Some c -> isspace c = false)
    /\ (forall c, last t = Some c -> isspace c = false).

(** The file has a supported extension and its reader returns [raw]. *)
Inductive reads (env : Env) (file_obj : UploadedFile.t) (raw : str) : Prop :=
  | reads_pdf :
      endswith (str_lower env (UploadedFile.name file_obj)) (lit ".pdf") = true ->
      _read_pdf env file_obj = Ok raw -> reads env file_obj raw
  | reads_docx :
      endswith (str_lower env (UploadedFile.name file_obj)) (lit ".docx") = true ->
      _read_docx env file_obj = Ok raw -> reads env file_obj raw
  | reads_txt :
      endswith (str_lower env (UploadedFile.name file_obj)) (lit ".txt") = true ->
      _read_txt env file_obj = raw -> reads env file_obj raw.

(** The instance being saved was read from the table and still has its
    key and its document. *)
Definition row_of (w : World) (s : Summary.t) : Prop :=
  exists r, r ∈ summaries w /\ Summary.id s = Summary.id r
            /\ Summary.document s = Summary.document r.

(** No document has fewer summaries in [w'] than in [w]. *)
Definition keeps_summaries (w w' : World) : Prop :=
  forall document_id : Z,
    (length (doc_summaries document_id w) <= length (doc_summaries document_id w'))%nat.

(** ** Concrete environments and inputs *)

(** [str.lower] on ASCII letters. *)
Definition ascii_lower (s : str) : str :=
  map (fun c => if (65 <=? c)%N && (c <=? 90)%N then (c + 32)%N else c) s.

Definition encode_ascii (s : string) : list byte :=
  map byte_of_ascii (list_ascii_of_string s).

(** An environment for running the pipeline on ASCII files: the decoder
    accepts ASCII content, a PDF has one page and a Word document one
    paragraph per line. *)
Definition test_env (s : Settings) (p : option Pipeline) : Env := {|
  settings := s;
  str_lower := ascii_lower;
  decode_utf8 := fun content =>
    if forallb (fun b => (Byte.to_N b <? 128)%N) content
    then Some (decode_latin1 content) else None;
  fitz_page_texts := fun content => Ok [decode_latin1 content];
  docx_paragraph_texts := fun content => Ok (split 10%N (decode_latin1 content));
  transformers_pipeline := p;
  serializer_is_valid := fun _ => true
|}.

(** Small limits, so that both sides of each threshold are at hand. *)
Definition small_settings : Settings := {|
  SUMMARY_SHORT_MAX_LEN := 60;
  SUMMARY_SHORT_MIN_LEN := 15;
  SUMMARY_DETAILED_MAX_LEN := 180;
  SUMMARY_DETAILED_MIN_LEN := 60;
  MAX_DOCUMENT_SIZE_MB := 25;
  MAX_EXTRACT_CHAR := 10;
  AUTO_SUMMARY_MAX_CHAR := 5
|}.

(** A pipeline whose every call raises. *)
Definition crashing_pipeline : Pipeline :=
  fun _ _ _ => Raise {| exn_type := Exception; exn_str := lit "model crashed" |}.

Definition upload (name body : string) : UploadedFile.t :=
  {| UploadedFile.name := lit name;
     UploadedFile.size := Z.of_nat (String.length body);
     UploadedFile.content := encode_ascii body |}.

Definition request_of (f : UploadedFile.t) : Request.t :=
  {| Request.FILES_file := Some f; Request.user := 7 |}.

Definition bare_request : Request.t :=
  {| Request.FILES_file := None; Request.user := 7 |}.


Definition fallback_env : Env := test_env small_settings None.
Definition crashing_env : Env := test_env small_settings (Some crashing_pipeline).

Definition model_crashed : exn :=
  {| exn_type := Exception; exn_str := lit "model crashed" |}.

(** Three characters, below every limit. *)
Definition short_file : UploadedFile.t := upload "a.txt" "abc".

(** Twenty-nine characters once trimmed, above the small limits. *)
Definition long_file : UploadedFile.t :=
  upload "Notes.TXT" "  hello world. this is. a test.  ".

(** Five characters: as many as [AUTO_SUMMARY_MAX_CHAR] in the small
    settings. *)
Definition threshold_file : UploadedFile.t := upload "a.txt" "abcde".

(** The state after the upload of [long_file]: document 1, summary
    [pending], one task message. *)
Definition pending_world : World :=
  run fallback_env (OpCreate (request_of long_file)) World0.

(** The state after the upload of [short_file] with the crashing
    pipeline: document 1, summary [failed]. *)
Definition failed_world : World :=
  run crashing_env (OpCreate (request_of short_file)) World0.

(** ** Further vocabulary and inputs *)

(** What [extract_text] makes of a reader's output: trimmed, then cut
    when longer than [MAX_EXTRACT_CHAR]. *)
Definition trim_and_cut (env : Env) (raw : str) : str :=
  if len (strip raw) >? MAX_EXTRACT_CHAR (settings env)
  then slice_to (MAX_EXTRACT_CHAR (settings env)) (strip raw)
  else strip raw.

(** The pipeline object [_get_pipeline] hands out in an environment. *)
Definition pipeline_of (env : Env) : Pipeline :=
  match transformers_pipeline env with
  | Some p => p
  | None => SimpleFallback
  end.

(** The two calls [summarize] can make of the pipeline object. *)
Definition short_call (env : Env) (text : str) : PipelineCall :=
  {| call_text := strip text;
     call_max_length := SUMMARY_SHORT_MAX_LEN (settings env);
     call_min_length := SUMMARY_SHORT_MIN_LEN (settings env) |}.

Definition detailed_call (env : Env) (text : str) : PipelineCall :=
  {| call_text := strip text;
     call_max_length := SUMMARY_DETAILED_MAX_LEN (settings env);
     call_min_length := SUMMARY_DETAILED_MIN_LEN (settings env) |}.

(** The pipeline's answer to a call. *)
Definition answer (env : Env) (c : PipelineCall) : result str :=
  pipeline_of env (call_text c) (call_max_length c) (call_min_length c).

(** Every stored status is one of [STATUS_CHOICES]. *)
Definition statuses_valid (w : World) : Prop :=
  forall s, s ∈ summaries w -> Summary.status s ∈ Summary.STATUS_CHOICES.

(** The text fields go with the status: only a [complete] summary has a
    short summary, and a summary waiting or being processed has no text
    at all. *)
Definition texts_follow_status (w : World) : Prop :=
  forall s, s ∈ summaries w ->
    (Summary.status s <> lit "complete" -> Summary.short_summary s = [])
    /\ (Summary.status s = lit "pending" \/ Summary.status s = lit "processing" ->
        Summary.detailed_notes s = []).

(** A row an operation may write into the summary table [w] holds: a
    fresh [pending] row without text, a [complete] row, a [failed] row
    without short summary, or the row of a [pending] summary taken to
    [processing] with its texts, or to [failed] with its short summary. *)
Definition written_row (w : World) (x : Summary.t) : Prop :=
  (Summary.status x = lit "pending"
   /\ Summary.short_summary x = [] /\ Summary.detailed_notes x = [])
  \/ Summary.status x = lit "complete"
  \/ (Summary.status x = lit "failed" /\ Summary.short_summary x = [])
  \/ (exists s, s ∈ summaries w
                /\ Summary.status s = lit "pending"
                /\ Summary.short_summary x = Summary.short_summary s
                /\ ((Summary.status x = lit "processing"
                     /\ Summary.detailed_notes x = Summary.detailed_notes s)
                    \/ Summary.status x = lit "failed")).

(** Every task message names a stored document. *)
Definition queue_names_documents (w : World) : Prop :=
  forall document_id, document_id ∈ celery_queue w ->
                      is_Some (documents w !! document_id).

(** A Word document of blank paragraphs. *)
Definition blank_docx : UploadedFile.t := upload "Blank.DOCX" "  
 
	".

(** A text file of blanks. *)
Definition blank_file : UploadedFile.t := upload "blank.txt" "   ".

(** A request of another user. *)
Definition stranger_request : Request.t :=
  {| Request.FILES_file := None; Request.user := 8 |}.

(** A pipeline that answers the short call with the text itself and
    raises on the longer, detailed call. *)
Definition half_pipeline : Pipeline :=
  fun text max_length _ =>
    if max_length <=? 100 then Ok text else Raise model_crashed.

Definition half_env : Env := test_env small_settings (Some half_pipeline).
(** * Verification *)

(** ** Sanity checks of the string primitives *)

Example strip_example : strip (lit "  a b  ") = lit "a b".
Proof. reflexivity. Qed.

Example split_example :
  split 46%N (lit "a.b..c.") = [lit "a"; lit "b"; []; lit "c"; []].
Proof. reflexivity. Qed.

Example join_example : join (lit ". ") [lit "a"; lit "b"] = lit "a. b".
Proof. reflexivity. Qed.

Example slice_examples :
  slice_to 2 (lit "abcd") = lit "ab" /\ slice_to 9 (lit "abcd") = lit "abcd"
  /\ slice_to (-1) (lit "abcd") = lit "abc" /\ slice_to (-9) (lit "abcd") = [].
Proof. repeat split; reflexivity. Qed.

Example of_Z_examples :
  of_Z 0 = lit "0" /\ of_Z 1024 = lit "1024" /\ of_Z (-37) = lit "-37".
Proof. repeat split; reflexivity. Qed.

(** ** Trimming and slicing *)

Lemma lstrip_spec (s : str) :
  exists l, s = l ++ lstrip s
            /\ Forall (fun c => isspace c = true) l
            /\ (forall c, head (lstrip s) = Some c -> isspace c = false).
Proof.
  induction s as [|c s IH]; simpl.
  - exists []. split_and!; [done | constructor | done].
  - destruct (isspace c) eqn:Hc.
    + destruct IH as (l & Hs & Hl & Hh).
      exists (c :: l). split_and!; [simpl; by rewrite <- Hs | by constructor | done].
    + exists []. split_and!; [done | constructor |].
      simpl. intros c' [= <-]. done.
Qed.

Lemma rstrip_spec (s : str) :
  exists r, s = rstrip s ++ r
            /\ Forall (fun c => isspace c = true) r
            /\ (forall c, last (rstrip s) = Some c -> isspace c = false).
Proof.
  unfold rstrip.
  destruct (lstrip_spec (reverse s)) as (l & Hs & Hl & Hh).
  exists (reverse l). split_and!.
  - rewrite <- reverse_app, <- Hs. by rewrite reverse_involutive.
  - by apply Forall_reverse.
  - intros c. rewrite last_reverse. apply Hh.
Qed.

Lemma rstrip_head (s : str) (c : char) :
  head (rstrip s) = Some c -> head s = Some c.
Proof.
  destruct (rstrip_spec s) as (r & Hs & _). intros H.
  rewrite Hs. destruct (rstrip s); [done|]. exact H.
Qed.

Lemma strip_trimmed (s : str) : trimmed_of s (strip s).
Proof.
  unfold strip.
  destruct (lstrip_spec s) as (l & Hs & Hl & Hh).
  destruct (rstrip_spec (lstrip s)) as (r & Hs' & Hr & Hlast).
  exists l, r. split_and!; try done.
  - rewrite <- Hs'. exact Hs.
  - intros c Hc. apply Hh. by apply rstrip_head.
Qed.

Lemma slice_to_nonneg (n : Z) (s : str) :
  0 <= n -> slice_to n s = take (Z.to_nat n) s.
Proof.
  intros Hn. unfold slice_to.
  destruct (Z.leb_spec 0 n); [done | lia].
Qed.

Lemma endswith_last (s suffix : str) :
  endswith s suffix = true -> suffix <> [] -> last s = last suffix.
Proof.
  unfold endswith. intros H Hne. apply bool_decide_eq_true in H.
  rewrite <- (take_drop (length s - length suffix) s) at 1.
  rewrite H. rewrite last_app.
  destruct (last suffix) eqn:E; [done|].
  apply last_None in E. done.
Qed.

(** A name cannot end with two suffixes whose last characters differ. *)
Lemma endswith_clash (s suffix1 suffix2 : str) :
  endswith s suffix1 = true -> endswith s suffix2 = true ->
  suffix1 <> [] -> suffix2 <> [] -> last suffix1 <> last suffix2 -> False.
Proof.
  intros H1 H2 Hne1 Hne2 Hlast.
  apply endswith_last in H1; [|done]. apply endswith_last in H2; [|done].
  congruence.
Qed.

(** Reduction stops at the literals and at the calls the lemmas below
    describe. *)
Arguments lit : simpl never.
Arguments of_Z : simpl never.
Arguments Summary_save : simpl never.
Arguments Summary_objects_create : simpl never.
Arguments generate_document_summaries : simpl never.
Arguments summarize : simpl never.

Ltac munfold :=
  unfold mbind, mret, M_bind, M_ret, result_bind, result_ret, raise,
    try_except in *.

Ltac lit_neq :=
  let H := fresh in intros H; vm_compute in H; discriminate H.

Section Correctness.

Context (env : Env).

(** ** Extraction *)

Lemma extract_text_eq (file_obj : UploadedFile.t) (raw : str) :
  exceeds_size_limit env file_obj = false ->
  reads env file_obj raw ->
  extract_text env file_obj =
    Ok (if len (strip raw) >? MAX_EXTRACT_CHAR (settings env)
        then slice_to (MAX_EXTRACT_CHAR (settings env)) (strip raw)
        else strip raw).
Proof.
  intros Hsize Hreads. unfold extract_text. rewrite Hsize.
  assert (Hpick :
    (if endswith (str_lower env (UploadedFile.name file_obj)) (lit ".pdf")
     then _read_pdf env file_obj
     else if endswith (str_lower env (UploadedFile.name file_obj)) (lit ".docx")
          then _read_docx env file_obj
          else if endswith (str_lower env (UploadedFile.name file_obj)) (lit ".txt")
               then Ok (_read_txt env file_obj)
               else Raise {| exn_type := ExtractionError;
                             exn_str := lit "Unsupported file type. Supported formats: PDF, DOCX, TXT" |})
    = Ok raw).
  { destruct Hreads as [Hpdf Hr | Hdocx Hr | Htxt Hr].
    - by rewrite Hpdf.
    - destruct (endswith _ (lit ".pdf")) eqn:Hpdf.
      + exfalso. eapply endswith_clash; [exact Hpdf | exact Hdocx | done..].
      + by rewrite Hdocx.
    - destruct (endswith _ (lit ".pdf")) eqn:Hpdf.
      { exfalso. eapply endswith_clash; [exact Hpdf | exact Htxt | done..]. }
      destruct (endswith _ (lit ".docx")) eqn:Hdocx.
      { exfalso. eapply endswith_clash; [exact Hdocx | exact Htxt | done..]. }
      rewrite Htxt. by rewrite Hr. }
  rewrite Hpick. simpl.
  by destruct (len (strip raw) >? MAX_EXTRACT_CHAR (settings env)).
Qed.

(** C7. A supported file within the size limit: the reader's output is
    trimmed of leading and trailing whitespace; when the trimmed text is
    longer than [MAX_EXTRACT_CHAR] the extracted text is its prefix of
    exactly that many characters, and otherwise the trimmed text itself. *)
Theorem extract_text_trims_then_cuts (file_obj : UploadedFile.t) (raw : str) :
  0 <= MAX_EXTRACT_CHAR (settings env) ->
  exceeds_size_limit env file_obj = false ->
  reads env file_obj raw ->
  exists text,
    extract_text env file_obj = Ok text
    /\ trimmed_of raw (strip raw)
    /\ (MAX_EXTRACT_CHAR (settings env) < len (strip raw) ->
        len text = MAX_EXTRACT_CHAR (settings env)
        /\ text = take (Z.to_nat (MAX_EXTRACT_CHAR (settings env))) (strip raw)
        /\ text `prefix_of` strip raw)
    /\ (len (strip raw) <= MAX_EXTRACT_CHAR (settings env) -> text = strip raw).
Proof.
  intros Hmax Hsize Hreads.
  eexists. split; [by apply extract_text_eq|].
  split; [apply strip_trimmed|].
  split.
  - intros Hlong.
    destruct (Z.gtb_spec (len (strip raw)) (MAX_EXTRACT_CHAR (settings env))); [|lia].
    rewrite slice_to_nonneg by done.
    split_and!; [|done|apply prefix_take].
    unfold len in *. rewrite length_take. lia.
  - intros Hshort.
    destruct (Z.gtb_spec (len (strip raw)) (MAX_EXTRACT_CHAR (settings env))); [lia|done].
Qed.


(** ** The summarization service *)

Lemma summarize_empty (text mode : str) (w : World) :
  strip text = [] ->
  summarize env text mode w =
    (Ok (<[lit "short_summary" := []]> (<[lit "detailed_notes" := []]> ∅)),
     set_pipeline true (pipeline_calls w) w).
Proof.
  intros Hempty. unfold summarize, _get_pipeline. munfold.
  rewrite bool_decide_eq_true_2 by done. reflexivity.
Qed.

(** C8. When the text is empty after trimming, [summarize] with mode
    [both] returns a dictionary whose two fields are the empty string, and
    no call of the pipeline object is made: the record of calls is the one
    before, the rest of the state too, only the pipeline has been
    fetched. *)
Theorem summarize_empty_text_short_circuits (text : str) (w : World) :
  strip text = [] ->
  exists result w',
    summarize env text (lit "both") w = (Ok result, w')
    /\ result !! lit "short_summary" = Some []
    /\ result !! lit "detailed_notes" = Some []
    /\ pipeline_calls w' = pipeline_calls w
    /\ w' = set_pipeline true (pipeline_calls w) w.
Proof.
  intros Hempty. do 2 eexists.
  split; [by apply summarize_empty|].
  split_and!; [apply lookup_insert_eq | | done..].
  rewrite lookup_insert_ne by lit_neq. apply lookup_insert_eq.
Qed.

(** C10. A mode other than [short], [detailed] and [both], on a text that
    is not empty after trimming: [summarize] returns the empty dictionary,
    so neither key is present, and the pipeline object is not called. *)
Theorem summarize_unknown_mode_returns_empty_dict (text mode : str) (w : World) :
  mode <> lit "short" -> mode <> lit "detailed" -> mode <> lit "both" ->
  strip text <> [] ->
  exists result w',
    summarize env text mode w = (Ok result, w')
    /\ result = ∅
    /\ result !! lit "short_summary" = None
    /\ result !! lit "detailed_notes" = None
    /\ pipeline_calls w' = pipeline_calls w.
Proof.
  intros Hshort Hdetailed Hboth Htext.
  exists ∅, (set_pipeline true (pipeline_calls w) w).
  split_and!; try done.
  unfold summarize, _get_pipeline. munfold.
  rewrite (bool_decide_eq_false_2 (strip text = [])) by done.
  rewrite (bool_decide_eq_false_2 (mode = lit "short" \/ mode = lit "both")) by tauto.
  rewrite (bool_decide_eq_false_2 (mode = lit "detailed" \/ mode = lit "both")) by tauto.
  rewrite (bool_decide_eq_false_2 (mode = lit "short")) by done.
  rewrite (bool_decide_eq_false_2 (mode = lit "detailed")) by done.
  reflexivity.
Qed.

(** [summarize] touches nothing but the pipeline cache and the record of
    its calls. *)
Lemma summarize_frame (text mode : str) (w : World) :
  exists calls, snd (summarize env text mode w) = set_pipeline true calls w.
Proof.
  unfold summarize, _get_pipeline, call_pipeline. munfold.
  destruct (bool_decide (strip text = [])); [by eexists|].
  destruct (bool_decide (mode = lit "short" \/ mode = lit "both")),
    (bool_decide (mode = lit "detailed" \/ mode = lit "both")); simpl;
    repeat match goal with
      | |- context [match ?p ?t ?a ?b with Ok _ => _ | Raise _ => _ end] =>
          destruct (p t a b); simpl
      end;
    by eexists.
Qed.

Lemma generate_document_summaries_frame (text : str) (w : World) :
  exists calls,
    snd (generate_document_summaries env text w) = set_pipeline true calls w.
Proof.
  unfold generate_document_summaries. munfold.
  destruct (summarize_frame text (lit "both") w) as [calls Hs].
  exists calls.
  destruct (summarize env text (lit "both") w) as [[result|e] w2]; exact Hs.
Qed.

(** ** The tables *)

Lemma map_key_inj {A B} (f : A -> B) (l : list A) (x y : A) :
  NoDup (map f l) -> x ∈ l -> y ∈ l -> f x = f y -> x = y.
Proof.
  induction l as [|a l IH]; simpl; intros Hnd Hx Hy Hf.
  - by apply elem_of_nil in Hx.
  - apply NoDup_cons in Hnd as [Hnotin Hnd].
    apply elem_of_cons in Hx as [->|Hx]; apply elem_of_cons in Hy as [->|Hy].
    + done.
    + exfalso. apply Hnotin. rewrite Hf.
      apply list_elem_of_In, in_map, list_elem_of_In, Hy.
    + exfalso. apply Hnotin. rewrite <- Hf.
      apply list_elem_of_In, in_map, list_elem_of_In, Hx.
    + by apply IH.
Qed.

Lemma at_most_one_equal {A} (l : list A) (x y : A) :
  (length l <= 1)%nat -> x ∈ l -> y ∈ l -> x = y.
Proof.
  destruct l as [|a [|b l]]; simpl; intros Hlen Hx Hy; [|..|lia].
  - by apply elem_of_nil in Hx.
  - apply list_elem_of_singleton in Hx, Hy. congruence.
Qed.

Lemma doc_summaries_elem (d : Z) (w : World) (s : Summary.t) :
  s ∈ doc_summaries d w <-> Summary.document s = d /\ s ∈ summaries w.
Proof. unfold doc_summaries. by rewrite list_elem_of_filter. Qed.

(** Under the constraint, two rows of one document are the same row. *)
Lemma unique_rows (w : World) (x y : Summary.t) :
  one_summary_per_document w ->
  x ∈ summaries w -> y ∈ summaries w ->
  Summary.document x = Summary.document y -> x = y.
Proof.
  intros Hu Hx Hy Hd.
  apply (at_most_one_equal (doc_summaries (Summary.document y) w)).
  - apply Hu.
  - by apply doc_summaries_elem.
  - by apply doc_summaries_elem.
Qed.

(** A document's first summary is its only one. *)
Lemma first_is_only (d : Z) (w : World) (s : Summary.t) :
  one_summary_per_document w ->
  head (doc_summaries d w) = Some s -> doc_summaries d w = [s].
Proof.
  intros Hu Hh. specialize (Hu d).
  destruct (doc_summaries d w) as [|a [|b l]]; simpl in *; [done| |lia].
  congruence.
Qed.

(** The key the sequence will give next belongs to no summary yet. *)
Lemma doc_summaries_fresh (w : World) :
  consistent w -> doc_summaries (next_document_id w) w = [].
Proof.
  intros Hc.
  destruct (doc_summaries (next_document_id w) w) as [|s l] eqn:E; [done|].
  assert (Hs : s ∈ doc_summaries (next_document_id w) w) by (rewrite E; left).
  apply doc_summaries_elem in Hs as [Hd Hs].
  destruct (summaries_owned w Hc s Hs) as [doc Hdoc].
  apply (documents_keyed w Hc) in Hdoc as [_ Hlt]. lia.
Qed.

Lemma update_row_ids (s : Summary.t) (l : list Summary.t) :
  map Summary.id (update_row s l) = map Summary.id l.
Proof.
  unfold update_row. induction l as [|x l IH]; simpl; [done|].
  rewrite IH. by case_bool_decide; [f_equal|].
Qed.

Lemma update_row_elem (s x : Summary.t) (l : list Summary.t) :
  x ∈ update_row s l ->
  (x = s /\ exists r, r ∈ l /\ Summary.id r = Summary.id s) \/ x ∈ l.
Proof.
  unfold update_row. induction l as [|a l IH]; simpl; intros Hx.
  - by apply elem_of_nil in Hx.
  - apply elem_of_cons in Hx as [->|Hx].
    + case_bool_decide.
      * left. split; [done|]. exists a. split; [left|done].
      * right. left.
    + destruct (IH Hx) as [[-> (r & Hr & Hid)]|Hin].
      * left. split; [done|]. exists r. split; [by right|done].
      * right. by right.
Qed.

Lemma filter_update_row (s : Summary.t) (d : Z) (l : list Summary.t) :
  (forall x, x ∈ l -> Summary.id x = Summary.id s ->
             Summary.document x = Summary.document s) ->
  filter (fun x => Summary.document x = d) (update_row s l)
  = update_row s (filter (fun x => Summary.document x = d) l).
Proof.
  unfold update_row. induction l as [|a l IH]; simpl; intros Hsame; [done|].
  assert (Hrest : forall x, x ∈ l -> Summary.id x = Summary.id s ->
                            Summary.document x = Summary.document s).
  { intros x Hx. apply Hsame. by right. }
  rewrite !filter_cons. rewrite (IH Hrest).
  case_bool_decide as Hid.
  - rewrite <- (Hsame a (list_elem_of_here _ _) Hid).
    destruct (decide (Summary.document a = d)); simpl; [|done].
    by rewrite bool_decide_eq_true_2.
  - destruct (decide (Summary.document a = d)); simpl; [|done].
    by rewrite bool_decide_eq_false_2.
Qed.

Lemma row_of_same_document (w : World) (s x : Summary.t) :
  consistent w -> row_of w s -> x ∈ summaries w ->
  Summary.id x = Summary.id s -> Summary.document x = Summary.document s.
Proof.
  intros Hc (r & Hr & Hid & Hd) Hx Hxs.
  assert (x = r) as ->; [|done].
  apply (map_key_inj Summary.id (summaries w)); [apply Hc|done..|congruence].
Qed.

Lemma doc_summaries_update (s : Summary.t) (d : Z) (w : World) :
  consistent w -> row_of w s ->
  doc_summaries d (set_summaries (update_row s (summaries w)) (next_summary_id w) w)
  = update_row s (doc_summaries d w).
Proof.
  intros Hc Hrow. unfold doc_summaries. simpl.
  apply filter_update_row. intros x Hx. by apply (row_of_same_document w).
Qed.

(** ** The invariant is kept by each write *)

Lemma consistent_set_pipeline (cached : bool) (calls : list PipelineCall) (w : World) :
  consistent w -> consistent (set_pipeline cached calls w).
Proof. intros [H1 H2 H3 H4 H5]. by constructor. Qed.

Lemma consistent_set_celery_queue (q : list Z) (w : World) :
  consistent w -> consistent (set_celery_queue q w).
Proof. intros [H1 H2 H3 H4 H5]. by constructor. Qed.

Lemma consistent_insert_document (doc : Document.t) (w : World) :
  consistent w -> Document.id doc = next_document_id w ->
  consistent (set_documents (insert (Document.id doc) doc) (next_document_id w + 1) w).
Proof.
  intros [H1 H2 H3 H4 H5] Hid. constructor; simpl; try done.
  - intros k d. rewrite lookup_insert. case_decide as Hk.
    + intros [= <-]. split; [done|lia].
    + intros Hd. destruct (H1 k d Hd). split; [done|lia].
  - intros s Hs. rewrite lookup_insert. case_decide; [by eexists|by apply H4].
Qed.

Lemma consistent_insert_summary (s : Summary.t) (w : World) :
  consistent w ->
  Summary.id s = next_summary_id w ->
  doc_summaries (Summary.document s) w = [] ->
  is_Some (documents w !! Summary.document s) ->
  consistent (set_summaries (s :: summaries w) (next_summary_id w + 1) w).
Proof.
  intros [H1 H2 H3 H4 H5] Hid Hnone Hdoc. constructor; simpl; try done.
  - intros x Hx. apply elem_of_cons in Hx as [->|Hx]; [lia|].
    specialize (H2 x Hx). lia.
  - apply NoDup_cons. split; [|done].
    intros Hin. apply list_elem_of_In, in_map_iff in Hin as (x & Hx & Hin).
    apply list_elem_of_In in Hin. specialize (H2 x Hin). lia.
  - intros x Hx. apply elem_of_cons in Hx as [->|Hx]; [done|by apply H4].
  - intros d. unfold doc_summaries. simpl. rewrite filter_cons.
    destruct (decide (Summary.document s = d)) as [<-|].
    + unfold doc_summaries in Hnone. rewrite Hnone. simpl. lia.
    + apply H5.
Qed.

Lemma length_update_row (s : Summary.t) (l : list Summary.t) :
  length (update_row s l) = length l.
Proof. unfold update_row. apply length_map. Qed.

Lemma consistent_update_summary (s : Summary.t) (w : World) :
  consistent w -> row_of w s ->
  consistent (set_summaries (update_row s (summaries w)) (next_summary_id w) w).
Proof.
  intros Hc Hrow. pose proof Hc as [H1 H2 H3 H4 H5].
  constructor; simpl; try done.
  - intros x Hx. apply update_row_elem in Hx as [[-> (r & Hr & Hid)]|Hx].
    + rewrite <- Hid. by apply H2.
    + by apply H2.
  - by rewrite update_row_ids.
  - intros x Hx. apply update_row_elem in Hx as [[-> _]|Hx]; [|by apply H4].
    destruct Hrow as (r & Hr & _ & ->). by apply H4.
  - intros d. rewrite doc_summaries_update by done.
    rewrite length_update_row. apply H5.
Qed.

(** In a consistent table, saving an instance read from it is the UPDATE
    of its row. *)
Lemma Summary_save_eq (s : Summary.t) (w : World) :
  consistent w -> row_of w s ->
  Summary_save s w =
    (Ok tt, set_summaries (update_row s (summaries w)) (next_summary_id w) w).
Proof.
  intros Hc Hrow. unfold Summary_save.
  rewrite bool_decide_eq_false_2.
  - rewrite bool_decide_eq_true_2; [done|].
    destruct Hrow as (r & Hr & Hid & _).
    apply Exists_exists. exists r. split; [done|congruence].
  - intros Hex. apply Exists_exists in Hex as (x & Hx & Hne & Hd).
    destruct Hrow as (r & Hr & Hid & Hdr).
    apply Hne. rewrite Hid. f_equal.
    apply (unique_rows w); [apply Hc|done..|congruence].
Qed.

Lemma row_of_after_update (s s' : Summary.t) (w : World) :
  row_of w s -> Summary.id s' = Summary.id s ->
  Summary.document s' = Summary.document s ->
  row_of (set_summaries (update_row s (summaries w)) (next_summary_id w) w) s'.
Proof.
  intros (r & Hr & Hid & Hd) Hid' Hd'. exists s. split_and!; [|done..].
  simpl. unfold update_row.
  apply list_elem_of_In, in_map_iff. exists r.
  split; [|by apply list_elem_of_In].
  by rewrite bool_decide_eq_true_2.
Qed.

Lemma row_of_set_pipeline (c : bool) (l : list PipelineCall) (s : Summary.t) (w : World) :
  row_of w s -> row_of (set_pipeline c l w) s.
Proof. done. Qed.

(** ** Upload *)

Lemma Summary_objects_create_eq (doc : Document.t) (short_s detailed st : str)
    (w : World) :
  doc_summaries (Document.id doc) w = [] ->
  Summary_objects_create doc short_s detailed st w =
    (Ok {| Summary.id := next_summary_id w; Summary.document := Document.id doc;
           Summary.short_summary := short_s; Summary.detailed_notes := detailed;
           Summary.status := st |},
     set_summaries
       ({| Summary.id := next_summary_id w; Summary.document := Document.id doc;
           Summary.short_summary := short_s; Summary.detailed_notes := detailed;
           Summary.status := st |} :: summaries w)
       (next_summary_id w + 1) w).
Proof.
  intros Hnone. unfold Summary_objects_create.
  rewrite Hnone. by rewrite bool_decide_eq_false_2 by (by intros []).
Qed.

Ltac insert_row H :=
  match goal with
  | |- context [Summary_objects_create ?doc ?a ?b ?st ?w] =>
      rewrite (Summary_objects_create_eq doc a b st w H)
  end.

Lemma create_async (request : Request.t) (file_obj : UploadedFile.t)
    (extracted : str) (w : World) :
  consistent w ->
  Request.FILES_file request = Some file_obj ->
  extract_text env file_obj = Ok extracted ->
  serializer_is_valid env request = true ->
  AUTO_SUMMARY_MAX_CHAR (settings env) < len extracted ->
  let doc := {| Document.id := next_document_id w;
                Document.user := Request.user request;
                Document.original_filename := UploadedFile.name file_obj;
                Document.text_content := extracted |} in
  let summary := {| Summary.id := next_summary_id w;
                    Summary.document := Document.id doc;
                    Summary.short_summary := [];
                    Summary.detailed_notes := [];
                    Summary.status := lit "pending" |} in
  create env request w =
    (Ok {| data := DocumentData doc [summary]; status_code := HTTP_201_CREATED |},
     set_celery_queue (celery_queue w ++ [Document.id doc])
       (set_summaries (summary :: summaries w) (next_summary_id w + 1)
          (set_documents (insert (Document.id doc) doc) (next_document_id w + 1) w))).
Proof.
  intros Hc Hfile Hextract Hvalid Hlen doc summary.
  pose proof (doc_summaries_fresh w Hc) as Hfresh.
  unfold create, is_valid, serializer_save, delay, serializer_data.
  rewrite Hfile, Hextract, Hvalid. munfold. simpl.
  destruct (Z.gtb_spec (len extracted) (AUTO_SUMMARY_MAX_CHAR (settings env))); [|lia].
  insert_row Hfresh. simpl.
  unfold doc_summaries in *. simpl.
  rewrite filter_cons_True by done. by rewrite Hfresh.
Qed.

(** The synchronous branch, in terms of what [summarize] does on the
    state in which the document has just been stored. *)
Lemma create_sync (request : Request.t) (file_obj : UploadedFile.t)
    (extracted : str) (w : World) :
  consistent w ->
  Request.FILES_file request = Some file_obj ->
  extract_text env file_obj = Ok extracted ->
  serializer_is_valid env request = true ->
  len extracted <= AUTO_SUMMARY_MAX_CHAR (settings env) ->
  let doc := {| Document.id := next_document_id w;
                Document.user := Request.user request;
                Document.original_filename := UploadedFile.name file_obj;
                Document.text_content := extracted |} in
  let w_doc := set_documents (insert (Document.id doc) doc) (next_document_id w + 1) w in
  let summary :=
    match fst (summarize env extracted (lit "both") w_doc) with
    | Ok result =>
        {| Summary.id := next_summary_id w;
           Summary.document := Document.id doc;
           Summary.short_summary := dict_get (lit "short_summary") result;
           Summary.detailed_notes := dict_get (lit "detailed_notes") result;
           Summary.status := lit "complete" |}
    | Raise e =>
        {| Summary.id := next_summary_id w;
           Summary.document := Document.id doc;
           Summary.short_summary := [];
           Summary.detailed_notes := generation_failed e;
           Summary.status := lit "failed" |}
    end in
  create env request w =
    (Ok {| data := DocumentData doc [summary]; status_code := HTTP_201_CREATED |},
     set_summaries (summary :: summaries w) (next_summary_id w + 1)
       (snd (summarize env extracted (lit "both") w_doc))).
Proof.
  intros Hc Hfile Hextract Hvalid Hlen. cbv zeta.
  pose proof (doc_summaries_fresh w Hc) as Hfresh.
  unfold create, is_valid, serializer_save, serializer_data,
    generate_document_summaries.
  rewrite Hfile, Hextract, Hvalid. munfold. simpl.
  destruct (Z.gtb_spec (len extracted) (AUTO_SUMMARY_MAX_CHAR (settings env))); [lia|].
  match goal with
  | |- context [summarize env extracted (lit "both") ?w_doc] =>
      destruct (summarize_frame extracted (lit "both") w_doc) as [calls Hframe];
      destruct (summarize env extracted (lit "both") w_doc) as [[result|e] w2]
  end;
    simpl in *; subst w2;
    insert_row Hfresh; simpl;
    unfold doc_summaries in *; simpl;
    (rewrite filter_cons_True by done); by rewrite Hfresh.
Qed.

(** C1 (amended). A submission whose extracted text is strictly longer
    than [AUTO_SUMMARY_MAX_CHAR]: [create] answers 201, stores the document
    with one summary whose status is [pending] and whose two text fields
    are empty, sends exactly one task message, carrying the document's key,
    and does not call the summarization pipeline. *)
Theorem create_above_threshold_defers (request : Request.t)
    (file_obj : UploadedFile.t) (extracted : str) (w : World) :
  consistent w ->
  Request.FILES_file request = Some file_obj ->
  extract_text env file_obj = Ok extracted ->
  serializer_is_valid env request = true ->
  AUTO_SUMMARY_MAX_CHAR (settings env) < len extracted ->
  let doc := {| Document.id := next_document_id w;
                Document.user := Request.user request;
                Document.original_filename := UploadedFile.name file_obj;
                Document.text_content := extracted |} in
  exists resp w' summary,
    create env request w = (Ok resp, w')
    /\ status_code resp = HTTP_201_CREATED
    /\ data resp = DocumentData doc [summary]
    /\ documents w' !! next_document_id w = Some doc
    /\ doc_summaries (next_document_id w) w' = [summary]
    /\ Summary.status summary = lit "pending"
    /\ Summary.short_summary summary = []
    /\ Summary.detailed_notes summary = []
    /\ celery_queue w' = celery_queue w ++ [next_document_id w]
    /\ pipeline_calls w' = pipeline_calls w.
Proof.
  intros Hc Hfile Hextract Hvalid Hlen. cbv zeta.
  pose proof (doc_summaries_fresh w Hc) as Hfresh.
  do 3 eexists. split; [by apply create_async|].
  simpl. split_and!; try done.
  - apply lookup_insert_eq.
  - unfold doc_summaries in *. simpl.
    rewrite filter_cons_True by done. by rewrite Hfresh.
Qed.

(** C2. A submission whose extracted text is at most
    [AUTO_SUMMARY_MAX_CHAR] long: [create] runs [summarize] with mode
    [both] on the text before it answers; it answers 201 and stores the
    document with one summary, [complete] with the two fields of the
    result when [summarize] returns, [failed] when it raises; no task
    message is sent. *)
Theorem create_up_to_threshold_summarizes_inline (request : Request.t)
    (file_obj : UploadedFile.t) (extracted : str) (w : World) :
  consistent w ->
  Request.FILES_file request = Some file_obj ->
  extract_text env file_obj = Ok extracted ->
  serializer_is_valid env request = true ->
  len extracted <= AUTO_SUMMARY_MAX_CHAR (settings env) ->
  let doc := {| Document.id := next_document_id w;
                Document.user := Request.user request;
                Document.original_filename := UploadedFile.name file_obj;
                Document.text_content := extracted |} in
  exists resp w' summary,
    create env request w = (Ok resp, w')
    /\ status_code resp = HTTP_201_CREATED
    /\ data resp = DocumentData doc [summary]
    /\ documents w' !! next_document_id w = Some doc
    /\ doc_summaries (next_document_id w) w' = [summary]
    /\ celery_queue w' = celery_queue w
    /\ (Summary.status summary = lit "complete"
        \/ Summary.status summary = lit "failed")
    /\ match summarize env extracted (lit "both")
               (set_documents (insert (next_document_id w) doc)
                  (next_document_id w + 1) w) with
       | (Ok result, w2) =>
           Summary.status summary = lit "complete"
           /\ Summary.short_summary summary = dict_get (lit "short_summary") result
           /\ Summary.detailed_notes summary = dict_get (lit "detailed_notes") result
           /\ pipeline_calls w' = pipeline_calls w2
       | (Raise e, w2) =>
           Summary.status summary = lit "failed"
           /\ pipeline_calls w' = pipeline_calls w2
       end.
Proof.
  intros Hc Hfile Hextract Hvalid Hlen. cbv zeta.
  pose proof (doc_summaries_fresh w Hc) as Hfresh.
  pose proof (create_sync request file_obj extracted w Hc Hfile Hextract
                Hvalid Hlen) as Heq.
  cbv zeta in Heq. simpl in Heq.
  match type of Heq with
  | context [summarize env extracted (lit "both") ?w_doc] =>
      destruct (summarize_frame extracted (lit "both") w_doc) as [calls Hframe];
      destruct (summarize env extracted (lit "both") w_doc)
        as [[result|e] w2]
  end; simpl in Heq, Hframe; subst w2;
    (do 3 eexists; split; [exact Heq|]); simpl;
    (split_and!; try done;
     [ apply lookup_insert_eq
     | unfold doc_summaries in *; simpl;
       (rewrite filter_cons_True by done); by rewrite Hfresh
     | by (left + right) ]).
Qed.

Lemma generate_document_summaries_raises (text : str) (w w2 : World) (e : exn) :
  generate_document_summaries env text w = (Raise e, w2) ->
  summarize env text (lit "both") w = (Raise e, w2).
Proof.
  unfold generate_document_summaries. munfold.
  destruct (summarize env text (lit "both") w) as [[result|e'] w']; [done|].
  by intros [= -> ->].
Qed.

(** C6. The synchronous path, when the summarization raises an exception
    [e]: [create] does not raise, it answers 201 with the stored document,
    whose one summary has status [failed], an empty short summary and
    ["Generation failed: " + str(e)] as detailed notes; no task message is
    sent. *)
Theorem create_isolates_summarization_failure (request : Request.t)
    (file_obj : UploadedFile.t) (extracted : str) (w w2 : World) (e : exn) :
  consistent w ->
  Request.FILES_file request = Some file_obj ->
  extract_text env file_obj = Ok extracted ->
  serializer_is_valid env request = true ->
  len extracted <= AUTO_SUMMARY_MAX_CHAR (settings env) ->
  let doc := {| Document.id := next_document_id w;
                Document.user := Request.user request;
                Document.original_filename := UploadedFile.name file_obj;
                Document.text_content := extracted |} in
  generate_document_summaries env extracted
    (set_documents (insert (next_document_id w) doc) (next_document_id w + 1) w)
    = (Raise e, w2) ->
  exists resp w' summary,
    create env request w = (Ok resp, w')
    /\ status_code resp = HTTP_201_CREATED
    /\ data resp = DocumentData doc [summary]
    /\ documents w' !! next_document_id w = Some doc
    /\ doc_summaries (next_document_id w) w' = [summary]
    /\ Summary.status summary = lit "failed"
    /\ Summary.short_summary summary = []
    /\ Summary.detailed_notes summary = lit "Generation failed: " ++ exn_str e
    /\ celery_queue w' = celery_queue w.
Proof.
  intros Hc Hfile Hextract Hvalid Hlen. cbv zeta. intros Hraise.
  pose proof (doc_summaries_fresh w Hc) as Hfresh.
  pose proof (create_sync request file_obj extracted w Hc Hfile Hextract
                Hvalid Hlen) as Heq.
  cbv zeta in Heq. simpl in Heq.
  apply generate_document_summaries_raises in Hraise.
  match type of Hraise with
  | summarize env extracted (lit "both") ?w_doc = _ =>
      pose proof (summarize_frame extracted (lit "both") w_doc) as [calls Hframe]
  end.
  rewrite Hraise in Heq, Hframe. simpl in Heq, Hframe. subst w2.
  do 3 eexists. split; [exact Heq|].
  simpl. split_and!; try done.
  - apply lookup_insert_eq.
  - unfold doc_summaries in *. simpl.
    rewrite filter_cons_True by done. by rewrite Hfresh.
Qed.

(** ** Retry *)

Lemma update_row_absent (s : Summary.t) (l : list Summary.t) :
  (forall x, x ∈ l -> Summary.id x <> Summary.id s) -> update_row s l = l.
Proof.
  unfold update_row. induction l as [|a l IH]; simpl; intros Hne; [done|].
  rewrite bool_decide_eq_false_2 by (apply Hne; left).
  f_equal. apply IH. intros x Hx. apply Hne. by right.
Qed.

(** After the UPDATE of a document's only row, the document has the new
    row and the other documents have what they had. *)
Lemma doc_summaries_after_update (s s' : Summary.t) (d : Z) (w : World) :
  consistent w ->
  head (doc_summaries (Summary.document s) w) = Some s ->
  Summary.id s' = Summary.id s ->
  Summary.document s' = Summary.document s ->
  doc_summaries d (set_summaries (update_row s' (summaries w)) (next_summary_id w) w)
  = if decide (d = Summary.document s) then [s'] else doc_summaries d w.
Proof.
  intros Hc Hhead Hid Hdoc.
  assert (Hs : s ∈ summaries w).
  { apply head_Some_elem_of, doc_summaries_elem in Hhead. tauto. }
  assert (Hrow : row_of w s') by (by exists s).
  rewrite doc_summaries_update by done.
  destruct (decide (d = Summary.document s)) as [->|Hd].
  - rewrite (first_is_only _ _ _ (summaries_unique w Hc) Hhead).
    unfold update_row. simpl. by rewrite bool_decide_eq_true_2.
  - apply update_row_absent. intros x Hx Hxid.
    apply doc_summaries_elem in Hx as [Hxd Hx].
    apply Hd. rewrite <- Hxd. f_equal.
    apply (map_key_inj Summary.id (summaries w)); [apply Hc|done..|congruence].
Qed.

Lemma retry_summary_failed (request : Request.t) (pk : Z) (doc : Document.t)
    (s : Summary.t) (w : World) :
  consistent w ->
  documents w !! pk = Some doc ->
  Document.user doc = Request.user request ->
  head (doc_summaries pk w) = Some s ->
  Summary.status s = lit "failed" ->
  retry_summary request pk w =
    (Ok {| data := Message (lit "Summary generation retried");
           status_code := HTTP_200_OK |},
     set_celery_queue (celery_queue w ++ [pk])
       (set_summaries
          (update_row
             {| Summary.id := Summary.id s; Summary.document := Summary.document s;
                Summary.short_summary := []; Summary.detailed_notes := [];
                Summary.status := lit "pending" |}
             (summaries w))
          (next_summary_id w) w)).
Proof.
  intros Hc Hdoc Huser Hhead Hstatus.
  destruct (documents_keyed w Hc pk doc Hdoc) as [Hid _].
  assert (Hs : s ∈ summaries w).
  { apply head_Some_elem_of, doc_summaries_elem in Hhead. tauto. }
  unfold retry_summary, get_queryset_first, summaries_first, delay. munfold.
  rewrite Hdoc. rewrite bool_decide_eq_true_2 by done.
  rewrite Hid, Hhead.
  rewrite bool_decide_eq_false_2 by (intros Hne; by apply Hne).
  unfold Summary.set_status, Summary.set_short_summary,
    Summary.set_detailed_notes. simpl.
  match goal with
  | |- context [Summary_save ?s' w] =>
      rewrite (Summary_save_eq s' w Hc) by (by exists s)
  end.
  reflexivity.
Qed.

(** C3. [retry_summary] answers 200 only when the document's summary
    exists and its status is exactly [failed]. With any other status it
    answers 400 and the state is the one before. From [failed], the
    summary's status becomes [pending], its two text fields the empty
    string, the other documents' summaries and the documents are
    untouched, and one task message for the document is sent. *)
Theorem retry_summary_only_from_failed (request : Request.t) (pk : Z) (w : World) :
  consistent w ->
  (exists resp w', retry_summary request pk w = (Ok resp, w')
     /\ (status_code resp = HTTP_200_OK ->
         exists doc s,
           documents w !! pk = Some doc
           /\ Document.user doc = Request.user request
           /\ head (doc_summaries pk w) = Some s
           /\ Summary.status s = lit "failed")
     /\ (status_code resp <> HTTP_200_OK -> w' = w))
  /\ (forall doc s,
        documents w !! pk = Some doc ->
        Document.user doc = Request.user request ->
        head (doc_summaries pk w) = Some s ->
        Summary.status s <> lit "failed" ->
        retry_summary request pk w =
          (Ok {| data := Detail (lit "Summary is not in failed state");
                 status_code := HTTP_400_BAD_REQUEST |}, w))
  /\ (forall doc s,
        documents w !! pk = Some doc ->
        Document.user doc = Request.user request ->
        head (doc_summaries pk w) = Some s ->
        Summary.status s = lit "failed" ->
        exists resp w',
          retry_summary request pk w = (Ok resp, w')
          /\ status_code resp = HTTP_200_OK
          /\ doc_summaries pk w' =
               [{| Summary.id := Summary.id s; Summary.document := pk;
                   Summary.short_summary := []; Summary.detailed_notes := [];
                   Summary.status := lit "pending" |}]
          /\ (forall d, d <> pk -> doc_summaries d w' = doc_summaries d w)
          /\ documents w' = documents w
          /\ celery_queue w' = celery_queue w ++ [pk]).
Proof.
  intros Hc.
  assert (Hother : forall doc s,
    documents w !! pk = Some doc ->
    Document.user doc = Request.user request ->
    head (doc_summaries pk w) = Some s ->
    Summary.status s <> lit "failed" ->
    retry_summary request pk w =
      (Ok {| data := Detail (lit "Summary is not in failed state");
             status_code := HTTP_400_BAD_REQUEST |}, w)).
  { intros doc s Hdoc Huser Hhead Hstatus.
    destruct (documents_keyed w Hc pk doc Hdoc) as [Hid _].
    unfold retry_summary, get_queryset_first, summaries_first. munfold.
    rewrite Hdoc. rewrite bool_decide_eq_true_2 by done.
    rewrite Hid, Hhead. by rewrite bool_decide_eq_true_2. }
  split_and!; [|exact Hother|].
  - destruct (documents w !! pk) as [doc|] eqn:Hdoc.
    2:{ do 2 eexists. split.
        { unfold retry_summary, get_queryset_first. munfold. by rewrite Hdoc. }
        simpl. split; [done|]. done. }
    destruct (decide (Document.user doc = Request.user request)) as [Huser|Huser].
    2:{ do 2 eexists. split.
        { unfold retry_summary, get_queryset_first. munfold. rewrite Hdoc.
          by rewrite bool_decide_eq_false_2. }
        simpl. split; [done|]. done. }
    destruct (documents_keyed w Hc pk doc Hdoc) as [Hid _].
    destruct (head (doc_summaries pk w)) as [s|] eqn:Hhead.
    2:{ do 2 eexists. split.
        { unfold retry_summary, get_queryset_first, summaries_first. munfold.
          rewrite Hdoc. rewrite bool_decide_eq_true_2 by done.
          by rewrite Hid, Hhead. }
        simpl. split; [done|]. done. }
    destruct (decide (Summary.status s = lit "failed")) as [Hst|Hst].
    + do 2 eexists. split; [by eapply retry_summary_failed|].
      simpl. split; [|done]. intros _. by exists doc, s.
    + do 2 eexists. split; [by eapply Hother|].
      simpl. split; [done|]. done.
  - intros doc s Hdoc Huser Hhead Hstatus.
    do 2 eexists. split; [by eapply retry_summary_failed|].
    assert (Hd : Summary.document s = pk).
    { apply head_Some_elem_of, doc_summaries_elem in Hhead. tauto. }
    rewrite <- Hd in Hhead.
    split_and!; try done.
    + rewrite <- Hd.
      change (doc_summaries (Summary.document s) (set_celery_queue ?q ?w'))
        with (doc_summaries (Summary.document s) w').
      rewrite (doc_summaries_after_update s) by done.
      by rewrite decide_True.
    + intros d Hne.
      change (doc_summaries d (set_celery_queue ?q ?w'))
        with (doc_summaries d w').
      rewrite (doc_summaries_after_update s) by done.
      rewrite decide_False; [done|congruence].
Qed.

(** ** The task *)

Ltac task_unfold :=
  unfold generate_document_summary_async, task_body, task_except, mark_failed,
    bind_summary, setattr_summary, summary_save, Document_objects_get,
    summaries_first;
  unfold lift_world;
  munfold.

(** Without a document, without a summary, or with a summary whose status
    is not [pending], the task returns and the state is the one before. *)
Lemma task_noop (document_id : Z) (w : World) :
  (forall doc s,
     documents w !! document_id = Some doc ->
     head (doc_summaries (Document.id doc) w) = Some s ->
     Summary.status s <> lit "pending") ->
  exists msg, generate_document_summary_async env document_id w = (Ok msg, w).
Proof.
  intros Hguard. task_unfold. simpl.
  destruct (documents w !! document_id) as [doc|] eqn:Hdoc; simpl; [|by eexists].
  destruct (head (doc_summaries (Document.id doc) w)) as [s|] eqn:Hhead;
    simpl; [|by eexists].
  rewrite bool_decide_eq_false_2 by (by eapply Hguard). simpl. by eexists.
Qed.

Lemma task_pending (document_id : Z) (doc : Document.t) (s : Summary.t) (w : World) :
  consistent w ->
  documents w !! document_id = Some doc ->
  head (doc_summaries (Document.id doc) w) = Some s ->
  Summary.status s = lit "pending" ->
  let w1 := set_summaries
              (update_row (Summary.set_status (lit "processing") s) (summaries w))
              (next_summary_id w) w in
  generate_document_summary_async env document_id w =
    match generate_document_summaries env (Document.text_content doc) w1 with
    | (Ok (short_s, detailed), w2) =>
        (Ok (lit "Summary generated for document " ++ of_Z document_id),
         set_summaries
           (update_row
              {| Summary.id := Summary.id s; Summary.document := Summary.document s;
                 Summary.short_summary := short_s;
                 Summary.detailed_notes := detailed;
                 Summary.status := lit "complete" |}
              (summaries w2))
           (next_summary_id w2) w2)
    | (Raise e, w2) =>
        if bool_decide (exn_type e = DoesNotExist) then
          (Ok (lit "Document " ++ of_Z document_id ++ lit " not found"), w2)
        else
          (Ok (lit "Error generating summary for document " ++ of_Z document_id
               ++ lit ": " ++ exn_str e),
           set_summaries
             (update_row
                {| Summary.id := Summary.id s; Summary.document := Summary.document s;
                   Summary.short_summary := Summary.short_summary s;
                   Summary.detailed_notes := generation_failed e;
                   Summary.status := lit "failed" |}
                (summaries w2))
             (next_summary_id w2) w2)
    end.
Proof.
  intros Hc Hdoc Hhead Hstatus w1.
  assert (Hs : s ∈ summaries w).
  { apply head_Some_elem_of, doc_summaries_elem in Hhead. tauto. }
  assert (Hrow1 : row_of w (Summary.set_status (lit "processing") s))
    by (by exists s).
  assert (Hc1 : consistent w1) by (by apply consistent_update_summary).
  destruct (generate_document_summaries_frame (Document.text_content doc) w1)
    as [calls Hframe].
  task_unfold. simpl. rewrite Hdoc. simpl. rewrite Hhead. simpl.
  rewrite bool_decide_eq_true_2 by done. simpl.
  rewrite (Summary_save_eq _ w Hc Hrow1). simpl. fold w1.
  destruct (generate_document_summaries env (Document.text_content doc) w1)
    as [[[short_s detailed]|e] w2]; simpl in *; subst w2.
  - match goal with
    | |- context [Summary_save ?s' ?w'] =>
        rewrite (Summary_save_eq s' w')
    end; [done|by apply consistent_set_pipeline|].
    apply row_of_set_pipeline. by apply row_of_after_update.
  - case_bool_decide; simpl; [done|].
    match goal with
    | |- context [Summary_save ?s' ?w'] =>
        rewrite (Summary_save_eq s' w')
    end; [done|by apply consistent_set_pipeline|].
    apply row_of_set_pipeline. by apply row_of_after_update.
Qed.

(** The [pending] guard of the task, as a property of the state. *)
Lemma not_pending_after_update (document_id : Z) (s s' : Summary.t) (w : World) :
  consistent w ->
  head (doc_summaries (Summary.document s) w) = Some s ->
  Summary.id s' = Summary.id s ->
  Summary.document s' = Summary.document s ->
  Summary.status s' <> lit "pending" ->
  forall doc x,
    documents w !! document_id = Some doc ->
    Summary.document s = Document.id doc ->
    head (doc_summaries (Document.id doc)
            (set_summaries (update_row s' (summaries w)) (next_summary_id w) w))
      = Some x ->
    Summary.status x <> lit "pending".
Proof.
  intros Hc Hhead Hid Hdoc Hst doc x Hlook Hd.
  rewrite (doc_summaries_after_update s) by done.
  rewrite decide_True by done. simpl. by intros [= <-].
Qed.

(** C4. The task changes nothing unless it finds a [pending] summary:
    when the document is missing, has no summary, or has a summary in any
    other status, the task returns and the state is the one before. In a
    consistent state a run of the task leaves a state in which a second
    run for the same document changes nothing. *)
Theorem task_is_idempotent (document_id : Z) (w : World) :
  ((forall doc s,
      documents w !! document_id = Some doc ->
      head (doc_summaries (Document.id doc) w) = Some s ->
      Summary.status s <> lit "pending") ->
   exists msg, generate_document_summary_async env document_id w = (Ok msg, w))
  /\ (consistent w ->
      forall r1 w1,
        generate_document_summary_async env document_id w = (r1, w1) ->
        exists msg,
          generate_document_summary_async env document_id w1 = (Ok msg, w1)).
Proof.
  split; [apply task_noop|].
  intros Hc r1 w1 Hrun.
  destruct (documents w !! document_id) as [doc|] eqn:Hdoc.
  2:{ destruct (task_noop document_id w) as [msg Hnoop]; [intros; congruence|].
      rewrite Hnoop in Hrun. injection Hrun as <- <-.
      apply task_noop. intros; congruence. }
  destruct (head (doc_summaries (Document.id doc) w)) as [s|] eqn:Hhead.
  2:{ destruct (task_noop document_id w) as [msg Hnoop].
      { intros doc' s' Hd. rewrite Hdoc in Hd. injection Hd as <-.
        by rewrite Hhead. }
      rewrite Hnoop in Hrun. injection Hrun as <- <-.
      apply task_noop. intros doc' s' Hd. rewrite Hdoc in Hd.
      injection Hd as <-. by rewrite Hhead. }
  destruct (decide (Summary.status s = lit "pending")) as [Hst|Hst].
  2:{ destruct (task_noop document_id w) as [msg Hnoop].
      { intros doc' s' Hd. rewrite Hdoc in Hd. injection Hd as <-.
        rewrite Hhead. by intros [= <-]. }
      rewrite Hnoop in Hrun. injection Hrun as <- <-.
      apply task_noop. intros doc' s' Hd. rewrite Hdoc in Hd.
      injection Hd as <-. rewrite Hhead. by intros [= <-]. }
  (* the first run found the summary pending *)
  assert (Hd : Summary.document s = Document.id doc).
  { apply head_Some_elem_of, doc_summaries_elem in Hhead. tauto. }
  assert (Hs : s ∈ summaries w).
  { apply head_Some_elem_of, doc_summaries_elem in Hhead. tauto. }
  rewrite (task_pending document_id doc s w Hc Hdoc Hhead Hst) in Hrun.
  cbv zeta in Hrun.
  set (s1 := Summary.set_status (lit "processing") s) in *.
  set (wp := set_summaries (update_row s1 (summaries w)) (next_summary_id w) w) in *.
  assert (Hrow1 : row_of w s1) by (by exists s).
  assert (Hcp : consistent wp) by (by apply consistent_update_summary).
  assert (Hheadp : head (doc_summaries (Summary.document s1) wp) = Some s1).
  { unfold wp. rewrite (doc_summaries_after_update s) by (done || by rewrite Hd).
    by rewrite decide_True. }
  destruct (generate_document_summaries_frame (Document.text_content doc) wp)
    as [calls Hframe].
  destruct (generate_document_summaries env (Document.text_content doc) wp)
    as [[[short_s detailed]|e] w2]; simpl in Hframe; subst w2.
  - injection Hrun as <- <-. apply task_noop. intros doc' x Hd'.
    change (documents w !! document_id = Some doc') in Hd'.
    rewrite Hdoc in Hd'. injection Hd' as <-.
    apply (not_pending_after_update document_id s1 _ (set_pipeline true calls wp));
      first [done | by apply consistent_set_pipeline | lit_neq].
  - destruct (bool_decide (exn_type e = DoesNotExist)).
    + injection Hrun as <- <-. apply task_noop. intros doc' x Hd'.
      change (documents w !! document_id = Some doc') in Hd'.
      rewrite Hdoc in Hd'. injection Hd' as <-.
      change (doc_summaries (Document.id doc) (set_pipeline true calls wp))
        with (doc_summaries (Document.id doc) wp).
      rewrite <- Hd.
      change (Summary.document s) with (Summary.document s1).
      rewrite (first_is_only _ _ _ (summaries_unique wp Hcp) Hheadp).
      simpl. intros [= <-]. lit_neq.
    + injection Hrun as <- <-. apply task_noop. intros doc' x Hd'.
      change (documents w !! document_id = Some doc') in Hd'.
      rewrite Hdoc in Hd'. injection Hd' as <-.
      apply (not_pending_after_update document_id s1 _ (set_pipeline true calls wp));
        first [done | by apply consistent_set_pipeline | lit_neq].
Qed.

(** What the handler does to the instance in the local variable and to
    the table, whatever the instance and the state are when the exception
    arrives. *)
Lemma mark_failed_effect (document_id : Z) (e : exn) (s : Summary.t) (w : World) :
  let s' := {| Summary.id := Summary.id s; Summary.document := Summary.document s;
               Summary.short_summary := Summary.short_summary s;
               Summary.detailed_notes := generation_failed e;
               Summary.status := lit "failed" |} in
  exists r w',
    mark_failed document_id e {| local_summary := Some (Some s); world := w |}
      = (r, {| local_summary := Some (Some s'); world := w' |})
    /\ (forall x, x ∈ summaries w' -> x ∈ summaries w \/ x = s')
    /\ documents w' = documents w
    /\ celery_queue w' = celery_queue w.
Proof.
  intros s'. unfold mark_failed, setattr_summary, summary_save.
  unfold lift_world. munfold. simpl.
  unfold Summary.set_status, Summary.set_detailed_notes. simpl. fold s'.
  unfold Summary_save.
  destruct (bool_decide (Exists _ (summaries w))); simpl.
  { do 2 eexists. split; [done|]. split_and!; try done. by left. }
  destruct (bool_decide (Exists _ (summaries w))); simpl.
  - do 2 eexists. split; [done|]. split_and!; try done.
    simpl. intros x Hx. apply update_row_elem in Hx as [[-> _]|Hx]; [by right|by left].
  - do 2 eexists. split; [done|]. split_and!; try done.
    simpl. intros x Hx. apply elem_of_cons in Hx as [->|Hx]; [by right|by left].
Qed.

(** C9. The handler of the task assigns [failed] to the status and the
    failure text to the detailed notes of the instance, and saves it: the
    instance's short summary, key and document are what they were when the
    exception arrived, and the only row the handler can write is that
    instance. In particular, when the summarization raises for a [pending]
    summary, the task returns and the stored summary is [failed], with the
    failure text as detailed notes and the short summary it had before. *)
Theorem task_failure_keeps_short_summary (document_id : Z) (e : exn) :
  (forall (s : Summary.t) (w : World),
     exists r s' w',
       mark_failed document_id e {| local_summary := Some (Some s); world := w |}
         = (r, {| local_summary := Some (Some s'); world := w' |})
       /\ Summary.short_summary s' = Summary.short_summary s
       /\ Summary.id s' = Summary.id s
       /\ Summary.document s' = Summary.document s
       /\ Summary.status s' = lit "failed"
       /\ Summary.detailed_notes s' = lit "Generation failed: " ++ exn_str e
       /\ (forall x, x ∈ summaries w' -> x ∈ summaries w \/ x = s'))
  /\ (forall (doc : Document.t) (s : Summary.t) (w w2 : World),
        consistent w ->
        documents w !! document_id = Some doc ->
        head (doc_summaries (Document.id doc) w) = Some s ->
        Summary.status s = lit "pending" ->
        generate_document_summaries env (Document.text_content doc)
          (set_summaries
             (update_row (Summary.set_status (lit "processing") s) (summaries w))
             (next_summary_id w) w) = (Raise e, w2) ->
        exn_type e <> DoesNotExist ->
        exists msg w',
          generate_document_summary_async env document_id w = (Ok msg, w')
          /\ doc_summaries (Document.id doc) w' =
               [{| Summary.id := Summary.id s;
                   Summary.document := Summary.document s;
                   Summary.short_summary := Summary.short_summary s;
                   Summary.detailed_notes := lit "Generation failed: " ++ exn_str e;
                   Summary.status := lit "failed" |}]).
Proof.
  split.
  - intros s w.
    destruct (mark_failed_effect document_id e s w) as (r & w' & Heq & Hrows & _).
    exists r. eexists. exists w'. split; [exact Heq|]. by split_and!.
  - intros doc s w w2 Hc Hdoc Hhead Hst Hraise Hclass.
    assert (Hd : Summary.document s = Document.id doc).
    { apply head_Some_elem_of, doc_summaries_elem in Hhead. tauto. }
    assert (Hs : s ∈ summaries w).
    { apply head_Some_elem_of, doc_summaries_elem in Hhead. tauto. }
    pose proof (task_pending document_id doc s w Hc Hdoc Hhead Hst) as Hrun.
    cbv zeta in Hrun.
    set (s1 := Summary.set_status (lit "processing") s) in *.
    set (wp := set_summaries (update_row s1 (summaries w)) (next_summary_id w) w) in *.
    assert (Hrow1 : row_of w s1) by (by exists s).
    assert (Hcp : consistent wp) by (by apply consistent_update_summary).
    assert (Hheadp : head (doc_summaries (Summary.document s1) wp) = Some s1).
    { unfold wp. rewrite (doc_summaries_after_update s) by (done || by rewrite Hd).
      by rewrite decide_True. }
    destruct (generate_document_summaries_frame (Document.text_content doc) wp)
      as [calls Hframe].
    rewrite Hraise in Hrun, Hframe. simpl in Hframe. subst w2.
    rewrite bool_decide_eq_false_2 in Hrun by done.
    do 2 eexists. split; [exact Hrun|].
    rewrite <- Hd. change (Summary.document s) with (Summary.document s1) at 1.
    rewrite (doc_summaries_after_update s1 _ _ (set_pipeline true calls wp));
      [by rewrite decide_True|by apply consistent_set_pipeline|done..].
Qed.

(** ** One summary per document *)

Lemma keeps_summaries_refl (w : World) : keeps_summaries w w.
Proof. intros d. lia. Qed.

Lemma keeps_summaries_update (s : Summary.t) (w : World) :
  consistent w -> row_of w s ->
  keeps_summaries w
    (set_summaries (update_row s (summaries w)) (next_summary_id w) w).
Proof.
  intros Hc Hrow d. rewrite doc_summaries_update by done.
  rewrite length_update_row. lia.
Qed.

Lemma create_step (request : Request.t) (w : World) :
  consistent w ->
  consistent (snd (create env request w))
  /\ keeps_summaries w (snd (create env request w)).
Proof.
  intros Hc.
  destruct (Request.FILES_file request) as [file_obj|] eqn:Hfile.
  2:{ unfold create. rewrite Hfile. simpl. split; [done|apply keeps_summaries_refl]. }
  destruct (extract_text env file_obj) as [extracted|e] eqn:Hextract.
  2:{ unfold create. rewrite Hfile, Hextract.
      destruct (bool_decide (exn_type e = ExtractionError)); simpl;
        (split; [done|apply keeps_summaries_refl]). }
  destruct (serializer_is_valid env request) eqn:Hvalid.
  2:{ unfold create, is_valid. rewrite Hfile, Hextract, Hvalid. simpl.
      split; [done|apply keeps_summaries_refl]. }
  pose proof (doc_summaries_fresh w Hc) as Hfresh.
  set (doc := {| Document.id := next_document_id w;
                 Document.user := Request.user request;
                 Document.original_filename := UploadedFile.name file_obj;
                 Document.text_content := extracted |}).
  assert (Hcdoc : consistent
            (set_documents (insert (Document.id doc) doc) (next_document_id w + 1) w))
    by (by apply consistent_insert_document).
  destruct (Z.ltb_spec (AUTO_SUMMARY_MAX_CHAR (settings env)) (len extracted))
    as [Hlen|Hlen].
  - rewrite (create_async request file_obj extracted w) by done. cbv zeta. simpl.
    split.
    + apply consistent_set_celery_queue.
      apply (consistent_insert_summary
               {| Summary.id := next_summary_id w;
                  Summary.document := next_document_id w;
                  Summary.short_summary := []; Summary.detailed_notes := [];
                  Summary.status := lit "pending" |}
               (set_documents (insert (Document.id doc) doc) (next_document_id w + 1) w));
        [done..|].
      simpl. rewrite lookup_insert_eq. by eexists.
    + intros d. unfold doc_summaries. simpl. rewrite filter_cons.
      case_decide; simpl; lia.
  - rewrite (create_sync request file_obj extracted w) by done. cbv zeta. simpl.
    fold doc.
    destruct (summarize_frame extracted (lit "both")
                (set_documents (insert (next_document_id w) doc)
                   (next_document_id w + 1) w)) as [calls Hframe].
    rewrite Hframe.
    set (summary := match fst (summarize env extracted (lit "both") _) with
                    | Ok _ => _ | Raise _ => _ end).
    assert (Hsid : Summary.id summary = next_summary_id w
                   /\ Summary.document summary = next_document_id w).
    { unfold summary. by destruct (fst _). }
    destruct Hsid as [Hsid Hsdoc].
    split.
    + apply (consistent_insert_summary summary
               (set_pipeline true calls
                  (set_documents (insert (next_document_id w) doc)
                     (next_document_id w + 1) w))).
      * by apply consistent_set_pipeline.
      * done.
      * by rewrite Hsdoc.
      * rewrite Hsdoc. simpl. rewrite lookup_insert_eq. by eexists.
    + intros d. unfold doc_summaries. simpl. rewrite filter_cons.
      case_decide; simpl; lia.
Qed.

Lemma retrieve_summary_pure (request : Request.t) (pk : Z) (w : World) :
  snd (retrieve_summary request pk w) = w.
Proof.
  unfold retrieve_summary, get_queryset_first, summaries_first. munfold.
  destruct (documents w !! pk) as [doc|]; [|done].
  destruct (bool_decide (Document.user doc = Request.user request)); [|done].
  by destruct (head (doc_summaries (Document.id doc) w)).
Qed.

Lemma retry_step (request : Request.t) (pk : Z) (w : World) :
  consistent w ->
  consistent (snd (retry_summary request pk w))
  /\ keeps_summaries w (snd (retry_summary request pk w)).
Proof.
  intros Hc.
  destruct (documents w !! pk) as [doc|] eqn:Hdoc.
  2:{ unfold retry_summary, get_queryset_first. munfold. rewrite Hdoc. simpl.
      split; [done|apply keeps_summaries_refl]. }
  destruct (decide (Document.user doc = Request.user request)) as [Huser|Huser].
  2:{ unfold retry_summary, get_queryset_first. munfold. rewrite Hdoc.
      rewrite bool_decide_eq_false_2 by done. simpl.
      split; [done|apply keeps_summaries_refl]. }
  destruct (documents_keyed w Hc pk doc Hdoc) as [Hid _].
  destruct (head (doc_summaries pk w)) as [s|] eqn:Hhead.
  2:{ unfold retry_summary, get_queryset_first, summaries_first. munfold.
      rewrite Hdoc. rewrite bool_decide_eq_true_2 by done.
      rewrite Hid, Hhead. simpl. split; [done|apply keeps_summaries_refl]. }
  destruct (decide (Summary.status s = lit "failed")) as [Hst|Hst].
  - rewrite (retry_summary_failed request pk doc s w) by done. simpl.
    assert (Hs : s ∈ summaries w).
    { apply head_Some_elem_of, doc_summaries_elem in Hhead. tauto. }
    split.
    + apply consistent_set_celery_queue.
      apply consistent_update_summary; [done|]. by exists s.
    + apply (keeps_summaries_update _ w Hc). by exists s.
  - unfold retry_summary, get_queryset_first, summaries_first. munfold.
    rewrite Hdoc. rewrite bool_decide_eq_true_2 by done.
    rewrite Hid, Hhead. rewrite bool_decide_eq_true_2 by done. simpl.
    split; [done|apply keeps_summaries_refl].
Qed.

Lemma keeps_summaries_trans (w1 w2 w3 : World) :
  keeps_summaries w1 w2 -> keeps_summaries w2 w3 -> keeps_summaries w1 w3.
Proof. intros H12 H23 d. specialize (H12 d). specialize (H23 d). lia. Qed.

Lemma task_step (document_id : Z) (w : World) :
  consistent w ->
  consistent (snd (generate_document_summary_async env document_id w))
  /\ keeps_summaries w (snd (generate_document_summary_async env document_id w)).
Proof.
  intros Hc.
  assert (Hnoop : (forall doc s,
             documents w !! document_id = Some doc ->
             head (doc_summaries (Document.id doc) w) = Some s ->
             Summary.status s <> lit "pending") ->
          consistent (snd (generate_document_summary_async env document_id w))
          /\ keeps_summaries w (snd (generate_document_summary_async env document_id w))).
  { intros Hguard. destruct (task_noop document_id w Hguard) as [msg ->].
    simpl. split; [done|apply keeps_summaries_refl]. }
  destruct (documents w !! document_id) as [doc|] eqn:Hdoc;
    [|apply Hnoop; intros; congruence].
  destruct (head (doc_summaries (Document.id doc) w)) as [s|] eqn:Hhead;
    [|apply Hnoop; intros; congruence].
  destruct (decide (Summary.status s = lit "pending")) as [Hst|Hst];
    [|apply Hnoop; intros; congruence].
  clear Hnoop.
  assert (Hs : s ∈ summaries w).
  { apply head_Some_elem_of, doc_summaries_elem in Hhead. tauto. }
  rewrite (task_pending document_id doc s w Hc Hdoc Hhead Hst). cbv zeta.
  set (s1 := Summary.set_status (lit "processing") s) in *.
  set (wp := set_summaries (update_row s1 (summaries w)) (next_summary_id w) w) in *.
  assert (Hrow1 : row_of w s1) by (by exists s).
  assert (Hcp : consistent wp) by (by apply consistent_update_summary).
  assert (Hkp : keeps_summaries w wp) by (by apply keeps_summaries_update).
  destruct (generate_document_summaries_frame (Document.text_content doc) wp)
    as [calls Hframe].
  assert (Hc2 : consistent (set_pipeline true calls wp))
    by (by apply consistent_set_pipeline).
  assert (Hrow2 : forall s', Summary.id s' = Summary.id s1 ->
                             Summary.document s' = Summary.document s1 ->
                             row_of (set_pipeline true calls wp) s').
  { intros s' Hid Hd. apply row_of_set_pipeline. by apply row_of_after_update. }
  destruct (generate_document_summaries env (Document.text_content doc) wp)
    as [[[short_s detailed]|e] w2]; simpl in Hframe; subst w2.
  - simpl. split.
    + apply (consistent_update_summary _ (set_pipeline true calls wp)); [done|].
      by apply Hrow2.
    + eapply keeps_summaries_trans; [exact Hkp|].
      apply (keeps_summaries_update _ (set_pipeline true calls wp)); [done|].
      by apply Hrow2.
  - destruct (bool_decide (exn_type e = DoesNotExist)); simpl.
    + split; [done|exact Hkp].
    + split.
      * apply (consistent_update_summary _ (set_pipeline true calls wp)); [done|].
        by apply Hrow2.
      * eapply keeps_summaries_trans; [exact Hkp|].
        apply (keeps_summaries_update _ (set_pipeline true calls wp)); [done|].
        by apply Hrow2.
Qed.

(** Every operation keeps the tables consistent and removes no summary. *)
Lemma run_step (op : Operation) (w : World) :
  consistent w ->
  consistent (run env op w) /\ keeps_summaries w (run env op w).
Proof.
  intros Hc. destruct op as [request|request pk|request pk|document_id]; simpl.
  - by apply create_step.
  - rewrite retrieve_summary_pure. split; [done|apply keeps_summaries_refl].
  - by apply retry_step.
  - by apply task_step.
Qed.

Lemma next_document_id_free (w : World) :
  consistent w -> documents w !! next_document_id w = None.
Proof.
  intros Hc. destruct (documents w !! next_document_id w) as [doc|] eqn:E; [|done].
  apply (documents_keyed w Hc) in E as [_ Hlt]. lia.
Qed.

(** C5. In a consistent state, every operation (upload, status, retry,
    task) leaves a consistent state, so no document ever has more than
    one summary; a document that has its summary still has exactly one
    afterwards; and an upload answered with 201 has stored a document that
    did not exist before and has exactly one summary. *)
Theorem one_summary_per_document_invariant (w : World) :
  consistent w ->
  (forall op : Operation,
     consistent (run env op w)
     /\ one_summary_per_document (run env op w)
     /\ (forall d, length (doc_summaries d w) = 1%nat ->
                   length (doc_summaries d (run env op w)) = 1%nat))
  /\ (forall request resp w',
        create env request w = (Ok resp, w') ->
        status_code resp = HTTP_201_CREATED ->
        exists doc summary,
          data resp = DocumentData doc [summary]
          /\ documents w !! Document.id doc = None
          /\ documents w' !! Document.id doc = Some doc
          /\ doc_summaries (Document.id doc) w' = [summary]
          /\ length (doc_summaries (Document.id doc) w') = 1%nat).
Proof.
  intros Hc. split.
  - intros op. destruct (run_step op w Hc) as [Hc' Hkeep].
    split_and!; [done|apply Hc'|].
    intros d Hone. specialize (Hkeep d).
    pose proof (summaries_unique _ Hc' d). lia.
  - intros request resp w' Hrun Hcode.
    destruct (Request.FILES_file request) as [file_obj|] eqn:Hfile.
    2:{ unfold create in Hrun. rewrite Hfile in Hrun.
        injection Hrun as <- <-. done. }
    destruct (extract_text env file_obj) as [extracted|e] eqn:Hextract.
    2:{ unfold create in Hrun. rewrite Hfile, Hextract in Hrun.
        destruct (bool_decide (exn_type e = ExtractionError)); [|done].
        injection Hrun as <- <-. done. }
    destruct (serializer_is_valid env request) eqn:Hvalid.
    2:{ unfold create, is_valid in Hrun. by rewrite Hfile, Hextract, Hvalid in Hrun. }
    pose proof (doc_summaries_fresh w Hc) as Hfresh.
    pose proof (next_document_id_free w Hc) as Hfree.
    destruct (Z.ltb_spec (AUTO_SUMMARY_MAX_CHAR (settings env)) (len extracted))
      as [Hlen|Hlen].
    + rewrite (create_async request file_obj extracted w) in Hrun by done.
      cbv zeta in Hrun. injection Hrun as <- <-.
      do 2 eexists. split; [done|]. simpl.
      split_and!; [done|apply lookup_insert_eq|..];
        unfold doc_summaries in *; simpl;
        (rewrite filter_cons_True by done); by rewrite Hfresh.
    + rewrite (create_sync request file_obj extracted w) in Hrun by done.
      cbv zeta in Hrun. simpl in Hrun.
      match type of Hrun with
      | context [summarize env extracted (lit "both") ?w_doc] =>
          destruct (summarize_frame extracted (lit "both") w_doc) as [calls Hframe];
          destruct (summarize env extracted (lit "both") w_doc) as [[result|e] w2]
      end; simpl in Hrun, Hframe; subst w2; injection Hrun as <- <-;
        (do 2 eexists; split; [done|]); simpl;
        (split_and!; [done|apply lookup_insert_eq|..]);
        unfold doc_summaries in *; simpl;
        (rewrite filter_cons_True by done); by rewrite Hfresh.
Qed.



(** * Further properties of the code *)

(** ** Extraction: what is returned, and when *)

Lemma extract_text_inv (file_obj : UploadedFile.t) (text : str) :
  extract_text env file_obj = Ok text ->
  exceeds_size_limit env file_obj = false
  /\ exists raw, reads env file_obj raw /\ text = trim_and_cut env raw.
Proof.
  unfold extract_text, trim_and_cut.
  destruct (exceeds_size_limit env file_obj); [done|].
  intros H. split; [done|].
  destruct (endswith (str_lower env (UploadedFile.name file_obj)) (lit ".pdf"))
    eqn:Hpdf.
  { destruct (_read_pdf env file_obj) as [raw|e] eqn:Hr; [|done].
    exists raw. split; [by apply reads_pdf|].
    munfold. simpl in H. destruct (len (strip raw) >? _); congruence. }
  destruct (endswith (str_lower env (UploadedFile.name file_obj)) (lit ".docx"))
    eqn:Hdocx.
  { destruct (_read_docx env file_obj) as [raw|e] eqn:Hr; [|done].
    exists raw. split; [by apply reads_docx|].
    munfold. simpl in H. destruct (len (strip raw) >? _); congruence. }
  destruct (endswith (str_lower env (UploadedFile.name file_obj)) (lit ".txt"))
    eqn:Htxt; [|done].
  exists (_read_txt env file_obj). split; [by apply reads_txt|].
  munfold. simpl in H. destruct (len (strip _) >? _); congruence.
Qed.


Lemma head_take_Some {A} (n : nat) (l : list A) (x : A) :
  head (take n l) = Some x -> head l = Some x.
Proof. destruct n, l; simpl; done. Qed.

Lemma trim_and_cut_head (raw : str) (c : char) :
  head (trim_and_cut env raw) = Some c -> isspace c = false.
Proof.
  destruct (strip_trimmed raw) as (l & r & _ & _ & _ & Hhead & _).
  unfold trim_and_cut, slice_to.
  destruct (len (strip raw) >? _); [|apply Hhead].
  destruct (0 <=? _); intros H; apply head_take_Some in H; by apply Hhead.
Qed.

(** X2. With a non-negative [MAX_EXTRACT_CHAR], every text
    [extract_text] returns is at most that many characters long, and it
    never begins with a whitespace character. *)
Theorem extract_text_bounded (file_obj : UploadedFile.t) (text : str) :
  0 <= MAX_EXTRACT_CHAR (settings env) ->
  extract_text env file_obj = Ok text ->
  len text <= MAX_EXTRACT_CHAR (settings env)
  /\ (forall c, head text = Some c -> isspace c = false).
Proof.
  intros Hmax Hok.
  apply extract_text_inv in Hok as (_ & raw & _ & ->).
  split; [|apply trim_and_cut_head].
  unfold trim_and_cut.
  destruct (Z.gtb_spec (len (strip raw)) (MAX_EXTRACT_CHAR (settings env))); [|done].
  rewrite slice_to_nonneg by done. unfold len in *. rewrite length_take. lia.
Qed.

Lemma filter_none {A} (P : A -> Prop) `{forall x, Decision (P x)} (l : list A) :
  Forall (fun x => ~ P x) l -> filter P l = [].
Proof.
  induction 1 as [|x l Hx _ IH]; [done|].
  by rewrite filter_cons_False.
Qed.

(** X3. A Word document within the size limit all of whose paragraphs are
    blank is extracted as the empty text: the blank paragraphs are
    dropped before joining. *)
Theorem extract_text_blank_docx (file_obj : UploadedFile.t) (texts : list str) :
  exceeds_size_limit env file_obj = false ->
  endswith (str_lower env (UploadedFile.name file_obj)) (lit ".docx") = true ->
  docx_paragraph_texts env (UploadedFile.content file_obj) = Ok texts ->
  Forall (fun p => strip p = []) texts ->
  _read_docx env file_obj = Ok [] /\ extract_text env file_obj = Ok [].
Proof.
  intros Hsize Hdocx Hparagraphs Hblank.
  assert (Hread : _read_docx env file_obj = Ok []).
  { unfold _read_docx. rewrite Hparagraphs. simpl.
    rewrite filter_none; [done|].
    eapply Forall_impl; [exact Hblank|]. intros p Hp Hne. by apply Hne. }
  split; [done|].
  rewrite (extract_text_eq file_obj []) by (done || by apply reads_docx).
  change (strip []) with (@nil char). change (len []) with 0.
  destruct (0 >? MAX_EXTRACT_CHAR (settings env)); [|done].
  unfold slice_to. by destruct (0 <=? _); rewrite take_nil.
Qed.

(** ** The fallback summarizer and the bullet formatting *)

Lemma split_segments_no_sep (sep : char) (s seg : str) :
  seg ∈ split sep s -> sep ∉ seg.
Proof.
  revert seg. induction s as [|c s IH]; simpl; intros seg Hseg.
  - apply list_elem_of_singleton in Hseg as ->. apply not_elem_of_nil.
  - destruct (N.eqb_spec c sep) as [->|Hne].
    + apply elem_of_cons in Hseg as [->|Hseg]; [apply not_elem_of_nil|by apply IH].
    + destruct (split sep s) as [|first rest] eqn:E.
      * apply list_elem_of_singleton in Hseg as ->.
        intros Hin. apply list_elem_of_singleton in Hin. congruence.
      * apply elem_of_cons in Hseg as [->|Hseg].
        -- intros Hin. apply elem_of_cons in Hin as [?|Hin]; [congruence|].
           apply (IH first); [left|done].
        -- apply IH. by right.
Qed.

Lemma split_without_sep (sep : char) (s : str) :
  sep ∉ s -> split sep s = [s].
Proof.
  induction s as [|c s IH]; simpl; intros Hnot; [done|].
  destruct (N.eqb_spec c sep) as [->|Hne]; [exfalso; apply Hnot; left|].
  rewrite IH; [done|]. intros Hin. apply Hnot. by right.
Qed.

Lemma strip_elem (s : str) (c : char) : c ∈ strip s -> c ∈ s.
Proof.
  destruct (strip_trimmed s) as (l & r & Hs & _). intros Hc.
  rewrite Hs. rewrite !elem_of_app. tauto.
Qed.

Lemma join_elem (sep : str) (parts : list str) (c : char) :
  c ∈ join sep parts -> c ∈ sep \/ exists p, p ∈ parts /\ c ∈ p.
Proof.
  induction parts as [|p [|q rest] IH]; simpl; intros Hc.
  - by apply elem_of_nil in Hc.
  - right. exists p. split; [left|done].
  - rewrite !elem_of_app in Hc. destruct Hc as [Hc|[Hc|Hc]].
    + right. exists p. split; [left|done].
    + by left.
    + destruct (IH Hc) as [?|(x & Hx & Hcx)]; [by left|].
      right. exists x. split; [by right|done].
Qed.

(** X4. The fallback summarizer always answers; with a non-negative
    [max_length] its answer is at most that long and is a prefix of the
    first two sentences of the trimmed text joined by [". "]; a text
    without a full stop is answered by its own trimmed prefix; and
    [min_length] plays no part. *)
Theorem SimpleFallback_bounded (text : str) (max_length min_length : Z) :
  0 <= max_length ->
  exists out,
    SimpleFallback text max_length min_length = Ok out
    /\ len out <= max_length
    /\ out `prefix_of` join (lit ". ") (take 2 (split 46%N (strip text)))
    /\ (46%N ∉ strip text -> out = take (Z.to_nat max_length) (strip text))
    /\ (forall other, SimpleFallback text max_length other = Ok out).
Proof.
  intros Hmax. unfold SimpleFallback. eexists. split; [reflexivity|].
  rewrite slice_to_nonneg by done. split_and!.
  - unfold len. rewrite length_take. lia.
  - apply prefix_take.
  - intros Hnot. by rewrite split_without_sep.
  - done.
Qed.

Lemma bullets_of_no_sentence (detailed_output : str) :
  Forall (fun seg => strip seg = []) (split 46%N detailed_output) ->
  bullets_of detailed_output = lit "- ".
Proof.
  intros Hblank. unfold bullets_of.
  rewrite filter_none; [done|].
  eapply Forall_impl; [exact Hblank|]. intros p Hp Hne. by apply Hne.
Qed.

Lemma bullets_of_nonempty (detailed_output : str) :
  bullets_of detailed_output <> [].
Proof.
  unfold bullets_of. intros H. apply (f_equal length) in H.
  rewrite length_app in H. vm_compute in H. discriminate.
Qed.

(** X5. The detailed notes never contain a full stop: the output is cut
    at every full stop and the pieces are joined by line breaks and
    dashes. *)
Theorem bullets_of_has_no_full_stop (detailed_output : str) :
  46%N ∉ bullets_of detailed_output.
Proof.
  unfold bullets_of. intros Hin.
  apply elem_of_app in Hin as [Hin|Hin].
  { vm_compute in Hin. by repeat (apply elem_of_cons in Hin as [?|Hin]; [done|]);
      apply elem_of_nil in Hin. }
  apply join_elem in Hin as [Hin|(p & Hp & Hin)].
  { vm_compute in Hin. by repeat (apply elem_of_cons in Hin as [?|Hin]; [done|]);
      apply elem_of_nil in Hin. }
  apply list_elem_of_In, in_map_iff in Hp as (seg & <- & Hseg).
  apply list_elem_of_In, list_elem_of_filter in Hseg as [_ Hseg].
  apply strip_elem in Hin. by apply (split_segments_no_sep 46%N) in Hseg.
Qed.

(** X6. The detailed notes always begin with the marker ["- "], so they
    are never the empty string; when the output has no sentence at all
    (it is empty, or only full stops and blanks) they are that marker
    alone. *)
Theorem bullets_of_marker (detailed_output : str) :
  lit "- " `prefix_of` bullets_of detailed_output
  /\ bullets_of detailed_output <> []
  /\ (Forall (fun seg => strip seg = []) (split 46%N detailed_output) ->
      bullets_of detailed_output = lit "- ").
Proof.
  split_and!.
  - unfold bullets_of. by eexists.
  - apply bullets_of_nonempty.
  - apply bullets_of_no_sentence.
Qed.

(** ** [summarize], mode by mode *)

Ltac decide_modes :=
  repeat match goal with
    | |- context [bool_decide ?P] =>
        let b := eval vm_compute in (bool_decide P) in
        lazymatch b with
        | true => change (bool_decide P) with true
        | false => change (bool_decide P) with false
        end
    end.

Lemma summarize_nonblank_unfold (text mode : str) (w : World) :
  strip text <> [] ->
  summarize env text mode w =
    (result ← (if bool_decide (mode = lit "short" \/ mode = lit "both") then
                 summary_output ← call_pipeline (pipeline_of env) (strip text)
                     (SUMMARY_SHORT_MAX_LEN (settings env))
                     (SUMMARY_SHORT_MIN_LEN (settings env));
                 mret (<[lit "short_summary" := summary_output]> (∅ : gmap str str))
               else mret ∅);
     result ← (if bool_decide (mode = lit "detailed" \/ mode = lit "both") then
                 detailed_output ← call_pipeline (pipeline_of env) (strip text)
                     (SUMMARY_DETAILED_MAX_LEN (settings env))
                     (SUMMARY_DETAILED_MIN_LEN (settings env));
                 mret (<[lit "detailed_notes" := bullets_of detailed_output]> result)
               else mret result);
     let result := if bool_decide (mode = lit "short")
                   then setdefault (lit "detailed_notes") [] result else result in
     let result := if bool_decide (mode = lit "detailed")
                   then setdefault (lit "short_summary") [] result else result in
     mret result) (set_pipeline true (pipeline_calls w) w).
Proof.
  intros Hne. unfold summarize, _get_pipeline. munfold.
  by rewrite (bool_decide_eq_false_2 (strip text = [])) by done.
Qed.

(** X7. Mode [short] on a text that is not blank: the pipeline object is
    called once, on the trimmed text with the short bounds; when it
    answers, the result holds that answer as short summary and the empty
    string, present, as detailed notes. *)
Theorem summarize_short_mode (text out : str) (w : World) :
  strip text <> [] ->
  answer env (short_call env text) = Ok out ->
  exists result w',
    summarize env text (lit "short") w = (Ok result, w')
    /\ result !! lit "short_summary" = Some out
    /\ result !! lit "detailed_notes" = Some []
    /\ pipeline_calls w' = pipeline_calls w ++ [short_call env text].
Proof.
  intros Hne Hout. unfold answer, short_call in Hout. simpl in Hout.
  rewrite summarize_nonblank_unfold by done.
  unfold call_pipeline. munfold. decide_modes. simpl. rewrite Hout.
  unfold setdefault. rewrite lookup_insert_ne by lit_neq. rewrite lookup_empty.
  do 2 eexists. split; [reflexivity|]. split_and!; [|apply lookup_insert_eq|done].
  rewrite lookup_insert_ne by lit_neq. apply lookup_insert_eq.
Qed.

(** X8. Mode [detailed] on a text that is not blank: the pipeline object
    is called once, on the trimmed text with the detailed bounds; when it
    answers, the result holds the bulleted answer as detailed notes and
    the empty string, present, as short summary. *)
Theorem summarize_detailed_mode (text out : str) (w : World) :
  strip text <> [] ->
  answer env (detailed_call env text) = Ok out ->
  exists result w',
    summarize env text (lit "detailed") w = (Ok result, w')
    /\ result !! lit "short_summary" = Some []
    /\ result !! lit "detailed_notes" = Some (bullets_of out)
    /\ pipeline_calls w' = pipeline_calls w ++ [detailed_call env text].
Proof.
  intros Hne Hout. unfold answer, detailed_call in Hout. simpl in Hout.
  rewrite summarize_nonblank_unfold by done.
  unfold call_pipeline. munfold. decide_modes. simpl. rewrite Hout.
  unfold setdefault. rewrite lookup_insert_ne by lit_neq. rewrite lookup_empty.
  do 2 eexists. split; [reflexivity|]. split_and!; [apply lookup_insert_eq| |done].
  rewrite lookup_insert_ne by lit_neq. apply lookup_insert_eq.
Qed.

(** X9. Mode [both] on a text that is not blank: the pipeline object is
    called twice on the trimmed text, first with the short bounds and then
    with the detailed bounds; when both calls answer, the result holds the
    first answer as short summary and the bulleted second answer as
    detailed notes. *)
Theorem summarize_both_mode (text out1 out2 : str) (w : World) :
  strip text <> [] ->
  answer env (short_call env text) = Ok out1 ->
  answer env (detailed_call env text) = Ok out2 ->
  exists result w',
    summarize env text (lit "both") w = (Ok result, w')
    /\ result !! lit "short_summary" = Some out1
    /\ result !! lit "detailed_notes" = Some (bullets_of out2)
    /\ pipeline_calls w' =
         pipeline_calls w ++ [short_call env text; detailed_call env text].
Proof.
  intros Hne Hout1 Hout2. unfold answer, short_call, detailed_call in *.
  simpl in Hout1, Hout2.
  rewrite summarize_nonblank_unfold by done.
  unfold call_pipeline. munfold. decide_modes. simpl. rewrite Hout1. simpl.
  rewrite Hout2.
  do 2 eexists. split; [reflexivity|]. split_and!.
  - rewrite lookup_insert_ne by lit_neq. apply lookup_insert_eq.
  - apply lookup_insert_eq.
  - simpl. by rewrite <- app_assoc.
Qed.

(** X10. In mode [both], no partial result is returned: when the first
    call raises, [summarize] raises the same exception and the second call
    is never made; when the second call raises, [summarize] raises it and
    the first answer is lost. *)
Theorem summarize_both_failure (text : str) (e : exn) (w : World) :
  strip text <> [] ->
  (answer env (short_call env text) = Raise e ->
   exists w',
     summarize env text (lit "both") w = (Raise e, w')
     /\ pipeline_calls w' = pipeline_calls w ++ [short_call env text])
  /\ (forall out1,
        answer env (short_call env text) = Ok out1 ->
        answer env (detailed_call env text) = Raise e ->
        exists w',
          summarize env text (lit "both") w = (Raise e, w')
          /\ pipeline_calls w' =
               pipeline_calls w ++ [short_call env text; detailed_call env text]).
Proof.
  intros Hne. unfold answer, short_call, detailed_call. simpl. split.
  - intros Hout1. rewrite summarize_nonblank_unfold by done.
    unfold call_pipeline. munfold. decide_modes. simpl. rewrite Hout1.
    by eexists.
  - intros out1 Hout1 Hout2. rewrite summarize_nonblank_unfold by done.
    unfold call_pipeline. munfold. decide_modes. simpl. rewrite Hout1. simpl.
    rewrite Hout2. eexists. split; [reflexivity|]. simpl. by rewrite <- app_assoc.
Qed.

(** X11. For each of the three modes the serializer accepts, a result
    [summarize] returns always has both keys, whatever the text: the
    half that was not asked for is present. *)
Theorem summarize_known_modes_have_both_keys (text mode : str)
    (result : gmap str str) (w w' : World) :
  mode = lit "short" \/ mode = lit "detailed" \/ mode = lit "both" ->
  summarize env text mode w = (Ok result, w') ->
  is_Some (result !! lit "short_summary")
  /\ is_Some (result !! lit "detailed_notes").
Proof.
  intros Hmode.
  destruct (decide (strip text = [])) as [Hblank|Hne].
  { rewrite summarize_empty by done. intros [= <- Hw]. split.
    - rewrite lookup_insert_eq. by eexists.
    - rewrite lookup_insert_ne by lit_neq. rewrite lookup_insert_eq. by eexists. }
  rewrite summarize_nonblank_unfold by done. unfold call_pipeline, setdefault.
  destruct Hmode as [ -> | [ -> | -> ] ]; munfold; decide_modes; simpl.
  - destruct (pipeline_of env _ _ _) as [out|e]; simpl; [|done].
    rewrite lookup_insert_ne by lit_neq. rewrite lookup_empty.
    intros [= <- Hw]. split.
    + rewrite lookup_insert_ne by lit_neq. rewrite lookup_insert_eq. by eexists.
    + rewrite lookup_insert_eq. by eexists.
  - destruct (pipeline_of env _ _ _) as [out|e]; simpl; [|done].
    rewrite lookup_insert_ne by lit_neq. rewrite lookup_empty.
    intros [= <- Hw]. split.
    + rewrite lookup_insert_eq. by eexists.
    + rewrite lookup_insert_ne by lit_neq. rewrite lookup_insert_eq. by eexists.
  - destruct (pipeline_of env _ _ _) as [out1|e]; simpl; [|done].
    destruct (pipeline_of env _ _ _) as [out2|e]; simpl; [|done].
    intros [= <- Hw]. split.
    + rewrite lookup_insert_ne by lit_neq. rewrite lookup_insert_eq. by eexists.
    + rewrite lookup_insert_eq. by eexists.
Qed.

(** X12. When the HuggingFace pipeline cannot be built, [summarize] never
    raises: for every text and every mode it returns a result, computed by
    the fallback. *)
Theorem summarize_with_fallback_never_raises (text mode : str) (w : World) :
  transformers_pipeline env = None ->
  exists result w', summarize env text mode w = (Ok result, w').
Proof.
  intros Hnone.
  destruct (decide (strip text = [])) as [Hblank|Hne].
  { rewrite summarize_empty by done. by do 2 eexists. }
  rewrite summarize_nonblank_unfold by done.
  unfold call_pipeline, pipeline_of. rewrite Hnone. munfold.
  unfold SimpleFallback.
  destruct (bool_decide (mode = lit "short" \/ mode = lit "both")),
    (bool_decide (mode = lit "detailed" \/ mode = lit "both")); simpl;
    by do 2 eexists.
Qed.

(** X13. [summarize] leaves the tables, the key sequences and the Celery
    queue as they are; it adds at most two calls to the record of pipeline
    calls, each on the trimmed text, and none when the text is blank. *)
Theorem summarize_effects (text mode : str) (w : World) :
  exists added,
    snd (summarize env text mode w)
      = set_pipeline true (pipeline_calls w ++ added) w
    /\ (length added <= 2)%nat
    /\ Forall (fun c => call_text c = strip text) added
    /\ (strip text = [] -> added = []).
Proof.
  destruct (decide (strip text = [])) as [Hblank|Hne].
  { rewrite summarize_empty by done. exists []. simpl.
    rewrite app_nil_r. split_and!; [done|lia|constructor|done]. }
  rewrite summarize_nonblank_unfold by done.
  unfold call_pipeline. munfold.
  destruct (bool_decide (mode = lit "short" \/ mode = lit "both")),
    (bool_decide (mode = lit "detailed" \/ mode = lit "both")); simpl;
    repeat match goal with
      | |- context [match pipeline_of env ?t ?a ?b with Ok _ => _ | Raise _ => _ end] =>
          destruct (pipeline_of env t a b); simpl
      end;
    first
      [ exists []; simpl; rewrite app_nil_r;
        by split_and!; [done|lia|constructor|done]
      | eexists [_]; simpl;
        by split_and!; [done|lia|repeat constructor|done]
      | eexists [_; _]; simpl; rewrite <- app_assoc;
        by split_and!; [done|lia|repeat constructor|done] ].
Qed.

(** ** [generate_document_summaries] *)

(** X14. What [generate_document_summaries] returns: for a blank text the
    pair of empty strings, without any call; for any other text the
    pipeline's answer to the short call and the bulleted answer to the
    detailed call, so that the detailed notes are never empty. *)
Theorem generate_document_summaries_returns (text short_s detailed : str)
    (w w' : World) :
  generate_document_summaries env text w = (Ok (short_s, detailed), w') ->
  (strip text = [] ->
   short_s = [] /\ detailed = [] /\ pipeline_calls w' = pipeline_calls w)
  /\ (strip text <> [] ->
      answer env (short_call env text) = Ok short_s
      /\ (exists out, answer env (detailed_call env text) = Ok out
                      /\ detailed = bullets_of out)
      /\ detailed <> []
      /\ pipeline_calls w' =
           pipeline_calls w ++ [short_call env text; detailed_call env text]).
Proof.
  unfold generate_document_summaries, dict_get. munfold.
  destruct (decide (strip text = [])) as [Hblank|Hne].
  { rewrite summarize_empty by done.
    rewrite lookup_insert_eq. rewrite lookup_insert_ne by lit_neq.
    rewrite lookup_insert_eq. simpl. intros [= <- <- <-]. by split. }
  rewrite summarize_nonblank_unfold by done.
  unfold call_pipeline, answer, short_call, detailed_call.
  munfold. decide_modes. simpl.
  destruct (pipeline_of env _ _ _) as [out1|e]; simpl; [|done].
  destruct (pipeline_of env _ _ _) as [out2|e]; simpl; [|done].
  rewrite lookup_insert_eq. rewrite lookup_insert_ne by lit_neq.
  rewrite lookup_insert_eq. simpl. intros [= <- <- <-].
  split; [done|]. intros _. split_and!; [done|by eexists| |].
  - apply bullets_of_nonempty.
  - simpl. by rewrite <- app_assoc.
Qed.

Lemma generate_document_summaries_blank (text : str) (w : World) :
  strip text = [] ->
  generate_document_summaries env text w =
    (Ok ([], []), set_pipeline true (pipeline_calls w) w).
Proof.
  intros Hblank. unfold generate_document_summaries, dict_get. munfold.
  rewrite summarize_empty by done.
  rewrite lookup_insert_eq. rewrite lookup_insert_ne by lit_neq.
  by rewrite lookup_insert_eq.
Qed.

Lemma generate_document_summaries_answers (text out1 out2 : str) (w : World) :
  strip text <> [] ->
  answer env (short_call env text) = Ok out1 ->
  answer env (detailed_call env text) = Ok out2 ->
  generate_document_summaries env text w =
    (Ok (out1, bullets_of out2),
     set_pipeline true
       (pipeline_calls w ++ [short_call env text; detailed_call env text]) w).
Proof.
  intros Hne Hout1 Hout2. unfold answer, short_call, detailed_call in *.
  simpl in Hout1, Hout2.
  unfold generate_document_summaries, dict_get. munfold.
  rewrite summarize_nonblank_unfold by done.
  unfold call_pipeline. munfold. decide_modes. simpl. rewrite Hout1. simpl.
  rewrite Hout2. simpl.
  rewrite lookup_insert_eq. rewrite lookup_insert_ne by lit_neq.
  rewrite lookup_insert_eq. simpl. by rewrite <- app_assoc.
Qed.

(** ** Upload: all or nothing *)


(** X16. An upload touches nothing that was stored before: every document
    keeps its row, every other document keeps its summaries, the rows of
    the summary table and the task messages already sent stay where they
    were. *)
Theorem create_keeps_what_was_stored (request : Request.t) (w : World) :
  consistent w ->
  let w' := snd (create env request w) in
  (forall k doc, documents w !! k = Some doc -> documents w' !! k = Some doc)
  /\ (forall d, d <> next_document_id w -> doc_summaries d w' = doc_summaries d w)
  /\ summaries w `suffix_of` summaries w'
  /\ celery_queue w `prefix_of` celery_queue w'.
Proof.
  intros Hc. cbv zeta.
  assert (Hsame : snd (create env request w) = w ->
    (forall k doc, documents w !! k = Some doc ->
                   documents (snd (create env request w)) !! k = Some doc)
    /\ (forall d, d <> next_document_id w ->
                  doc_summaries d (snd (create env request w)) = doc_summaries d w)
    /\ summaries w `suffix_of` summaries (snd (create env request w))
    /\ celery_queue w `prefix_of` celery_queue (snd (create env request w))).
  { intros ->. by split_and!. }
  pose proof (next_document_id_free w Hc) as Hfree.
  destruct (Request.FILES_file request) as [file_obj|] eqn:Hfile.
  2:{ apply Hsame. unfold create. by rewrite Hfile. }
  destruct (extract_text env file_obj) as [extracted|e] eqn:Hextract.
  2:{ apply Hsame. unfold create. rewrite Hfile, Hextract.
      by case_bool_decide. }
  destruct (serializer_is_valid env request) eqn:Hvalid.
  2:{ apply Hsame. unfold create, is_valid. by rewrite Hfile, Hextract, Hvalid. }
  clear Hsame.
  destruct (Z.ltb_spec (AUTO_SUMMARY_MAX_CHAR (settings env)) (len extracted))
    as [Hlen|Hlen].
  - rewrite (create_async request file_obj extracted w) by done. simpl.
    split_and!.
    + intros k doc Hk. rewrite lookup_insert_ne; [done|]. congruence.
    + intros d Hd. unfold doc_summaries. simpl.
      by rewrite filter_cons_False by (simpl; congruence).
    + by eexists [_].
    + by eexists.
  - rewrite (create_sync request file_obj extracted w) by done. cbv zeta. simpl.
    match goal with
    | |- context [summarize env extracted (lit "both") ?w_doc] =>
        destruct (summarize_frame extracted (lit "both") w_doc) as [calls ->]
    end. simpl.
    split_and!.
    + intros k doc Hk. rewrite lookup_insert_ne; [done|]. congruence.
    + intros d Hd. unfold doc_summaries. simpl.
      rewrite filter_cons_False; [done|].
      destruct (fst _); simpl; congruence.
    + by eexists [_].
    + done.
Qed.

(** X17. The upload of a file whose extracted text is empty, with a
    non-negative threshold: [create] answers 201 and stores a [complete]
    summary whose two text fields are empty, without any call of the
    pipeline and without any task message. *)
Theorem create_blank_document (request : Request.t) (file_obj : UploadedFile.t)
    (w : World) :
  consistent w ->
  0 <= AUTO_SUMMARY_MAX_CHAR (settings env) ->
  Request.FILES_file request = Some file_obj ->
  extract_text env file_obj = Ok [] ->
  serializer_is_valid env request = true ->
  exists resp w',
    create env request w = (Ok resp, w')
    /\ status_code resp = HTTP_201_CREATED
    /\ doc_summaries (next_document_id w) w' =
         [{| Summary.id := next_summary_id w;
             Summary.document := next_document_id w;
             Summary.short_summary := []; Summary.detailed_notes := [];
             Summary.status := lit "complete" |}]
    /\ pipeline_calls w' = pipeline_calls w
    /\ celery_queue w' = celery_queue w.
Proof.
  intros Hc Hauto Hfile Hextract Hvalid.
  pose proof (doc_summaries_fresh w Hc) as Hfresh.
  rewrite (create_sync request file_obj [] w) by done. cbv zeta.
  rewrite summarize_empty by done. simpl. unfold dict_get.
  rewrite lookup_insert_eq. rewrite lookup_insert_ne by lit_neq.
  rewrite lookup_insert_eq. simpl.
  do 2 eexists. split; [reflexivity|]. simpl. split_and!; try done.
  unfold doc_summaries in *. simpl.
  rewrite filter_cons_True by done. by rewrite Hfresh.
Qed.

(** ** Status and retry endpoints *)

(** X18. A document of another user is treated as a missing one: both
    [retrieve_summary] and [retry_summary] answer 404 "Not found", the
    answer they give when no document has that key, and the state is the
    one before. *)
Theorem other_users_document_is_not_found (request : Request.t) (pk : Z) (w : World) :
  (documents w !! pk = None
   \/ exists doc, documents w !! pk = Some doc
                  /\ Document.user doc <> Request.user request) ->
  retrieve_summary request pk w =
    (Ok {| data := Detail (lit "Not found"); status_code := HTTP_404_NOT_FOUND |}, w)
  /\ retry_summary request pk w =
       (Ok {| data := Detail (lit "Not found"); status_code := HTTP_404_NOT_FOUND |}, w).
Proof.
  unfold retrieve_summary, retry_summary, get_queryset_first. munfold.
  intros [Hnone|(doc & Hdoc & Huser)].
  - by rewrite Hnone.
  - rewrite Hdoc. by rewrite bool_decide_eq_false_2.
Qed.

(** X19. [retrieve_summary] never raises and never changes the state.
    For a document of the requesting user with a summary it answers 200
    with the fields of the document's first summary, and the advisory
    message is absent exactly when the status is none of [pending],
    [processing] and [failed]. *)
Theorem retrieve_summary_reads (request : Request.t) (pk : Z) (w : World) :
  (exists resp, retrieve_summary request pk w = (Ok resp, w))
  /\ (forall doc s,
        documents w !! pk = Some doc ->
        Document.user doc = Request.user request ->
        head (doc_summaries (Document.id doc) w) = Some s ->
        exists message,
          retrieve_summary request pk w =
            (Ok {| data := SummaryData (Document.id doc) (Summary.status s)
                             (Summary.short_summary s) (Summary.detailed_notes s)
                             message;
                   status_code := HTTP_200_OK |}, w)
          /\ (message = None <->
              Summary.status s <> lit "pending"
              /\ Summary.status s <> lit "processing"
              /\ Summary.status s <> lit "failed")).
Proof.
  split.
  - unfold retrieve_summary, get_queryset_first, summaries_first. munfold.
    destruct (documents w !! pk) as [doc|]; [|by eexists].
    destruct (bool_decide (Document.user doc = Request.user request)); [|by eexists].
    destruct (head (doc_summaries (Document.id doc) w)); by eexists.
  - intros doc s Hdoc Huser Hhead.
    unfold retrieve_summary, get_queryset_first, summaries_first. munfold.
    rewrite Hdoc. rewrite bool_decide_eq_true_2 by done. rewrite Hhead.
    eexists. split; [reflexivity|].
    repeat case_bool_decide; split; try done; try tauto.
Qed.

(** ** The task in a consistent state *)

(** X20. In a consistent state the task never raises: whatever the
    document key and whatever the summarization does, it returns a
    message. *)
Theorem task_never_raises (document_id : Z) (w : World) :
  consistent w ->
  exists msg w', generate_document_summary_async env document_id w = (Ok msg, w').
Proof.
  intros Hc.
  assert (Hnoop : (forall doc s,
             documents w !! document_id = Some doc ->
             head (doc_summaries (Document.id doc) w) = Some s ->
             Summary.status s <> lit "pending") ->
          exists msg w',
            generate_document_summary_async env document_id w = (Ok msg, w')).
  { intros Hguard. destruct (task_noop document_id w Hguard) as [msg ->].
    by do 2 eexists. }
  destruct (documents w !! document_id) as [doc|] eqn:Hdoc;
    [|apply Hnoop; intros; congruence].
  destruct (head (doc_summaries (Document.id doc) w)) as [s|] eqn:Hhead;
    [|apply Hnoop; intros; congruence].
  destruct (decide (Summary.status s = lit "pending")) as [Hst|Hst];
    [|apply Hnoop; intros; congruence].
  rewrite (task_pending document_id doc s w Hc Hdoc Hhead Hst). cbv zeta.
  destruct (generate_document_summaries env _ _) as [[[short_s detailed]|e] w2].
  - by do 2 eexists.
  - case_bool_decide; by do 2 eexists.
Qed.

Lemma task_pending_completes (document_id : Z) (doc : Document.t) (s : Summary.t)
    (out1 out2 : str) (w : World) :
  consistent w ->
  documents w !! document_id = Some doc ->
  head (doc_summaries (Document.id doc) w) = Some s ->
  Summary.status s = lit "pending" ->
  strip (Document.text_content doc) <> [] ->
  answer env (short_call env (Document.text_content doc)) = Ok out1 ->
  answer env (detailed_call env (Document.text_content doc)) = Ok out2 ->
  exists msg w',
    generate_document_summary_async env document_id w = (Ok msg, w')
    /\ doc_summaries (Document.id doc) w' =
         [{| Summary.id := Summary.id s; Summary.document := Summary.document s;
             Summary.short_summary := out1;
             Summary.detailed_notes := bullets_of out2;
             Summary.status := lit "complete" |}]
    /\ documents w' = documents w
    /\ celery_queue w' = celery_queue w
    /\ pipeline_calls w' =
         pipeline_calls w ++ [short_call env (Document.text_content doc);
                              detailed_call env (Document.text_content doc)].
Proof.
  intros Hc Hdoc Hhead Hst Hne Hout1 Hout2.
  assert (Hd : Summary.document s = Document.id doc).
  { apply head_Some_elem_of, doc_summaries_elem in Hhead. tauto. }
  assert (Hs : s ∈ summaries w).
  { apply head_Some_elem_of, doc_summaries_elem in Hhead. tauto. }
  rewrite (task_pending document_id doc s w Hc Hdoc Hhead Hst). cbv zeta.
  set (s1 := Summary.set_status (lit "processing") s) in *.
  set (wp := set_summaries (update_row s1 (summaries w)) (next_summary_id w) w) in *.
  assert (Hrow1 : row_of w s1) by (by exists s).
  assert (Hcp : consistent wp) by (by apply consistent_update_summary).
  assert (Hheadp : head (doc_summaries (Summary.document s1) wp) = Some s1).
  { unfold wp. rewrite (doc_summaries_after_update s) by (done || by rewrite Hd).
    by rewrite decide_True. }
  rewrite (generate_document_summaries_answers _ out1 out2) by done.
  do 2 eexists. split; [reflexivity|]. split_and!; try done.
  rewrite <- Hd. change (Summary.document s) with (Summary.document s1) at 1.
  match goal with
  | |- doc_summaries _ (set_summaries _ _ ?w2) = _ =>
      rewrite (doc_summaries_after_update s1 _ _ w2);
        [by rewrite decide_True|by apply consistent_set_pipeline|done..]
  end.
Qed.

(** X21. The task on a [pending] summary of a document whose text is not
    blank, when both calls of the pipeline answer: it returns, the
    summary is [complete] with the first answer as short summary and the
    bulleted second answer as detailed notes, the two calls are the only
    ones made, and neither the documents nor the queue change. *)
Theorem task_completes_pending_summary (document_id : Z) (doc : Document.t)
    (s : Summary.t) (out1 out2 : str) (w : World) :
  consistent w ->
  documents w !! document_id = Some doc ->
  head (doc_summaries (Document.id doc) w) = Some s ->
  Summary.status s = lit "pending" ->
  strip (Document.text_content doc) <> [] ->
  answer env (short_call env (Document.text_content doc)) = Ok out1 ->
  answer env (detailed_call env (Document.text_content doc)) = Ok out2 ->
  exists msg w',
    generate_document_summary_async env document_id w = (Ok msg, w')
    /\ doc_summaries (Document.id doc) w' =
         [{| Summary.id := Summary.id s; Summary.document := Summary.document s;
             Summary.short_summary := out1;
             Summary.detailed_notes := bullets_of out2;
             Summary.status := lit "complete" |}]
    /\ documents w' = documents w
    /\ celery_queue w' = celery_queue w
    /\ pipeline_calls w' =
         pipeline_calls w ++ [short_call env (Document.text_content doc);
                              detailed_call env (Document.text_content doc)].
Proof.
  intros Hc Hdoc Hhead Hst Hne Hout1 Hout2.
  destruct (task_pending_completes document_id doc s out1 out2 w)
    as (msg & w' & Hrun & Hrows & Hdocs & Hqueue & Hcalls); try done.
  exists msg, w'. by split_and!.
Qed.

(** X22. A run of the task for one document leaves the documents, the
    queue and the summaries of every other document as they were, and
    neither adds nor removes a row of the summary table. *)
Theorem task_touches_one_document (document_id : Z) (w : World) :
  consistent w ->
  let w' := snd (generate_document_summary_async env document_id w) in
  documents w' = documents w
  /\ celery_queue w' = celery_queue w
  /\ map Summary.id (summaries w') = map Summary.id (summaries w)
  /\ (forall d, d <> document_id -> doc_summaries d w' = doc_summaries d w).
Proof.
  intros Hc. cbv zeta.
  assert (Hnoop : (forall doc s,
             documents w !! document_id = Some doc ->
             head (doc_summaries (Document.id doc) w) = Some s ->
             Summary.status s <> lit "pending") ->
    documents (snd (generate_document_summary_async env document_id w)) = documents w
    /\ celery_queue (snd (generate_document_summary_async env document_id w))
       = celery_queue w
    /\ map Summary.id (summaries (snd (generate_document_summary_async env document_id w)))
       = map Summary.id (summaries w)
    /\ (forall d, d <> document_id ->
          doc_summaries d (snd (generate_document_summary_async env document_id w))
          = doc_summaries d w)).
  { intros Hguard. destruct (task_noop document_id w Hguard) as [msg ->]. by simpl. }
  destruct (documents w !! document_id) as [doc|] eqn:Hdoc;
    [|apply Hnoop; intros; congruence].
  destruct (head (doc_summaries (Document.id doc) w)) as [s|] eqn:Hhead;
    [|apply Hnoop; intros; congruence].
  destruct (decide (Summary.status s = lit "pending")) as [Hst|Hst];
    [|apply Hnoop; intros; congruence].
  clear Hnoop.
  destruct (documents_keyed w Hc _ _ Hdoc) as [Hkey _].
  assert (Hd : Summary.document s = Document.id doc).
  { apply head_Some_elem_of, doc_summaries_elem in Hhead. tauto. }
  assert (Hs : s ∈ summaries w).
  { apply head_Some_elem_of, doc_summaries_elem in Hhead. tauto. }
  rewrite (task_pending document_id doc s w Hc Hdoc Hhead Hst). cbv zeta.
  set (s1 := Summary.set_status (lit "processing") s) in *.
  set (wp := set_summaries (update_row s1 (summaries w)) (next_summary_id w) w) in *.
  assert (Hrow1 : row_of w s1) by (by exists s).
  assert (Hcp : consistent wp) by (by apply consistent_update_summary).
  assert (Hheadp : head (doc_summaries (Summary.document s1) wp) = Some s1).
  { unfold wp. rewrite (doc_summaries_after_update s) by (done || by rewrite Hd).
    by rewrite decide_True. }
  assert (Hother : forall d, d <> document_id ->
                             doc_summaries d wp = doc_summaries d w).
  { intros d Hne. unfold wp. rewrite <- Hd in Hhead.
    rewrite (doc_summaries_after_update s) by done.
    rewrite decide_False; [done|congruence]. }
  destruct (generate_document_summaries_frame (Document.text_content doc) wp)
    as [calls Hframe].
  assert (Hfinal : forall s',
    Summary.id s' = Summary.id s1 -> Summary.document s' = Summary.document s1 ->
    map Summary.id (update_row s' (summaries (set_pipeline true calls wp)))
      = map Summary.id (summaries w)
    /\ (forall d, d <> document_id ->
          doc_summaries d
            (set_summaries (update_row s' (summaries (set_pipeline true calls wp)))
               (next_summary_id (set_pipeline true calls wp))
               (set_pipeline true calls wp))
          = doc_summaries d w)).
  { intros s' Hid' Hd'. split.
    - rewrite update_row_ids. simpl. by rewrite update_row_ids.
    - intros d Hne.
      rewrite (doc_summaries_after_update s1 s' d (set_pipeline true calls wp));
        [|by apply consistent_set_pipeline|done..].
      rewrite decide_False by (simpl; congruence). by apply Hother. }
  destruct (generate_document_summaries env (Document.text_content doc) wp)
    as [[[short_s detailed]|e] w2]; simpl in Hframe; subst w2.
  - simpl. destruct (Hfinal
      {| Summary.id := Summary.id s; Summary.document := Summary.document s;
         Summary.short_summary := short_s; Summary.detailed_notes := detailed;
         Summary.status := lit "complete" |} eq_refl eq_refl) as [Hids Hrest].
    by split_and!.
  - case_bool_decide; simpl.
    + split_and!; [done|done| |].
      * by rewrite update_row_ids.
      * exact Hother.
    + destruct (Hfinal
        {| Summary.id := Summary.id s; Summary.document := Summary.document s;
           Summary.short_summary := Summary.short_summary s;
           Summary.detailed_notes := generation_failed e;
           Summary.status := lit "failed" |} eq_refl eq_refl) as [Hids Hrest].
      by split_and!.
Qed.

(** ** How the operations compose *)

(** X23. A deferred upload followed by the task: for a text longer than
    the threshold and not blank, once [create] has answered and the task
    has run for the new document with both pipeline calls answering, the
    document's one summary is [complete] with the first answer as short
    summary and the bulleted second answer as detailed notes. *)
Theorem deferred_upload_then_task (request : Request.t) (file_obj : UploadedFile.t)
    (extracted out1 out2 : str) (w : World) :
  consistent w ->
  Request.FILES_file request = Some file_obj ->
  extract_text env file_obj = Ok extracted ->
  serializer_is_valid env request = true ->
  AUTO_SUMMARY_MAX_CHAR (settings env) < len extracted ->
  strip extracted <> [] ->
  answer env (short_call env extracted) = Ok out1 ->
  answer env (detailed_call env extracted) = Ok out2 ->
  exists resp w1 msg w2,
    create env request w = (Ok resp, w1)
    /\ celery_queue w1 = celery_queue w ++ [next_document_id w]
    /\ generate_document_summary_async env (next_document_id w) w1 = (Ok msg, w2)
    /\ doc_summaries (next_document_id w) w2 =
         [{| Summary.id := next_summary_id w;
             Summary.document := next_document_id w;
             Summary.short_summary := out1;
             Summary.detailed_notes := bullets_of out2;
             Summary.status := lit "complete" |}].
Proof.
  intros Hc Hfile Hextract Hvalid Hlen Hne Hout1 Hout2.
  pose proof (doc_summaries_fresh w Hc) as Hfresh.
  pose proof (create_step request w Hc) as [Hc1 _].
  rewrite (create_async request file_obj extracted w) in * by done.
  cbv zeta in *. simpl in Hc1.
  set (doc := {| Document.id := next_document_id w;
                 Document.user := Request.user request;
                 Document.original_filename := UploadedFile.name file_obj;
                 Document.text_content := extracted |}) in *.
  set (s := {| Summary.id := next_summary_id w;
               Summary.document := next_document_id w;
               Summary.short_summary := []; Summary.detailed_notes := [];
               Summary.status := lit "pending" |}) in *.
  match type of Hc1 with
  | consistent ?w1 =>
      destruct (task_pending_completes (next_document_id w) doc s out1 out2 w1)
        as (msg & w2 & Hrun & Hrows & _); try done
  end.
  - simpl. apply lookup_insert_eq.
  - unfold doc_summaries in *. simpl.
    rewrite filter_cons_True by done. by rewrite Hfresh.
  - do 4 eexists. split; [reflexivity|]. split; [done|]. by split.
Qed.

(** X24. A retry followed by the task: from a [failed] summary of the
    user's document, whose text is not blank, [retry_summary] answers 200
    and, when both pipeline calls answer, the task then leaves the
    summary [complete] with the new texts; the task message for the
    document has been sent. *)
Theorem retry_then_task_recovers (request : Request.t) (pk : Z) (doc : Document.t)
    (s : Summary.t) (out1 out2 : str) (w : World) :
  consistent w ->
  documents w !! pk = Some doc ->
  Document.user doc = Request.user request ->
  head (doc_summaries pk w) = Some s ->
  Summary.status s = lit "failed" ->
  strip (Document.text_content doc) <> [] ->
  answer env (short_call env (Document.text_content doc)) = Ok out1 ->
  answer env (detailed_call env (Document.text_content doc)) = Ok out2 ->
  exists resp w1 msg w2,
    retry_summary request pk w = (Ok resp, w1)
    /\ status_code resp = HTTP_200_OK
    /\ celery_queue w1 = celery_queue w ++ [pk]
    /\ generate_document_summary_async env pk w1 = (Ok msg, w2)
    /\ doc_summaries pk w2 =
         [{| Summary.id := Summary.id s; Summary.document := pk;
             Summary.short_summary := out1;
             Summary.detailed_notes := bullets_of out2;
             Summary.status := lit "complete" |}].
Proof.
  intros Hc Hdoc Huser Hhead Hst Hne Hout1 Hout2.
  destruct (documents_keyed w Hc pk doc Hdoc) as [Hid _].
  assert (Hd : Summary.document s = pk).
  { apply head_Some_elem_of, doc_summaries_elem in Hhead. tauto. }
  pose proof (retry_step request pk w Hc) as [Hc1 _].
  rewrite (retry_summary_failed request pk doc s w) in * by done.
  simpl in Hc1.
  set (s0 := {| Summary.id := Summary.id s; Summary.document := Summary.document s;
                Summary.short_summary := []; Summary.detailed_notes := [];
                Summary.status := lit "pending" |}) in *.
  match type of Hc1 with
  | consistent ?w1 =>
      destruct (task_pending_completes pk doc s0 out1 out2 w1)
        as (msg & w2 & Hrun & Hrows & _); try done
  end.
  - rewrite Hid.
    change (doc_summaries pk (set_celery_queue ?q ?w'))
      with (doc_summaries pk w').
    rewrite <- Hd in Hhead |- *.
    rewrite (doc_summaries_after_update s s0) by done.
    by rewrite decide_True.
  - do 4 eexists. split; [reflexivity|]. split_and!; try done.
    rewrite Hid in Hrows. rewrite Hrows. unfold s0. simpl. by rewrite Hd.
Qed.

(** ** Invariants of the stored data *)


(** The rows after an operation: those of before, or rows of the shapes
    the code writes. *)
Lemma run_rows (op : Operation) (w : World) (x : Summary.t) :
  consistent w ->
  x ∈ summaries (run env op w) -> x ∈ summaries w \/ written_row w x.
Proof.
  intros Hc. destruct op as [request|request pk|request pk|document_id]; simpl.
  - (* create *)
    destruct (Request.FILES_file request) as [file_obj|] eqn:Hfile.
    2:{ unfold create. rewrite Hfile. simpl. by left. }
    destruct (extract_text env file_obj) as [extracted|e] eqn:Hextract.
    2:{ unfold create. rewrite Hfile, Hextract. case_bool_decide; simpl; by left. }
    destruct (serializer_is_valid env request) eqn:Hvalid.
    2:{ unfold create, is_valid. rewrite Hfile, Hextract, Hvalid. simpl. by left. }
    destruct (Z.ltb_spec (AUTO_SUMMARY_MAX_CHAR (settings env)) (len extracted))
      as [Hlen|Hlen].
    + rewrite (create_async request file_obj extracted w) by done. simpl.
      intros Hx. apply elem_of_cons in Hx as [->|Hx]; [|by left].
      right. left. done.
    + rewrite (create_sync request file_obj extracted w) by done. cbv zeta. simpl.
      match goal with
      | |- context [summarize env extracted (lit "both") ?w_doc] =>
          destruct (summarize_frame extracted (lit "both") w_doc) as [calls Hframe];
          destruct (summarize env extracted (lit "both") w_doc) as [[result|e] w2]
      end; simpl in *; subst w2; simpl;
        intros Hx; (apply elem_of_cons in Hx as [->|Hx]; [|by left]); right.
      * right. left. done.
      * right. right. left. done.
  - rewrite retrieve_summary_pure. by left.
  - (* retry *)
    assert (Hsame : snd (retry_summary request pk w) = w ->
              x ∈ summaries (snd (retry_summary request pk w)) ->
              x ∈ summaries w \/ written_row w x).
    { intros ->. by left. }
    destruct (documents w !! pk) as [doc|] eqn:Hdoc.
    2:{ apply Hsame. unfold retry_summary, get_queryset_first. munfold.
        by rewrite Hdoc. }
    destruct (decide (Document.user doc = Request.user request)) as [Huser|Huser].
    2:{ apply Hsame. unfold retry_summary, get_queryset_first. munfold.
        rewrite Hdoc. by rewrite bool_decide_eq_false_2. }
    destruct (documents_keyed w Hc pk doc Hdoc) as [Hid _].
    destruct (head (doc_summaries pk w)) as [s|] eqn:Hhead.
    2:{ apply Hsame. unfold retry_summary, get_queryset_first, summaries_first.
        munfold. rewrite Hdoc. rewrite bool_decide_eq_true_2 by done.
        by rewrite Hid, Hhead. }
    destruct (decide (Summary.status s = lit "failed")) as [Hst|Hst].
    + rewrite (retry_summary_failed request pk doc s w) by done. simpl.
      intros Hx. apply update_row_elem in Hx as [[-> _]|Hx]; [|by left].
      right. left. done.
    + apply Hsame. unfold retry_summary, get_queryset_first, summaries_first.
      munfold. rewrite Hdoc. rewrite bool_decide_eq_true_2 by done.
      rewrite Hid, Hhead. by rewrite bool_decide_eq_true_2.
  - (* the task *)
    assert (Hnoop : (forall doc s,
               documents w !! document_id = Some doc ->
               head (doc_summaries (Document.id doc) w) = Some s ->
               Summary.status s <> lit "pending") ->
              x ∈ summaries (snd (generate_document_summary_async env document_id w)) ->
              x ∈ summaries w \/ written_row w x).
    { intros Hguard. destruct (task_noop document_id w Hguard) as [msg ->].
      simpl. by left. }
    destruct (documents w !! document_id) as [doc|] eqn:Hdoc;
      [|apply Hnoop; intros; congruence].
    destruct (head (doc_summaries (Document.id doc) w)) as [s|] eqn:Hhead;
      [|apply Hnoop; intros; congruence].
    destruct (decide (Summary.status s = lit "pending")) as [Hst|Hst];
      [|apply Hnoop; intros; congruence].
    clear Hnoop.
    assert (Hs : s ∈ summaries w).
    { apply head_Some_elem_of, doc_summaries_elem in Hhead. tauto. }
    assert (Hprocessing : forall y,
      y ∈ update_row (Summary.set_status (lit "processing") s) (summaries w) ->
      y ∈ summaries w \/ written_row w y).
    { intros y Hy. apply update_row_elem in Hy as [[-> _]|Hy]; [|by left].
      right. do 3 right. exists s. split_and!; try done. by left. }
    rewrite (task_pending document_id doc s w Hc Hdoc Hhead Hst). cbv zeta.
    match goal with
    | |- context [generate_document_summaries env ?t ?wp] =>
        destruct (generate_document_summaries_frame t wp) as [calls Hframe];
        destruct (generate_document_summaries env t wp)
          as [[[short_s detailed]|e] w2]
    end; simpl in Hframe; subst w2.
    + simpl. intros Hx. apply update_row_elem in Hx as [[-> _]|Hx];
        [|by apply Hprocessing].
      right. right. left. done.
    + case_bool_decide; simpl; [apply Hprocessing|].
      intros Hx. apply update_row_elem in Hx as [[-> _]|Hx];
        [|by apply Hprocessing].
      right. do 3 right. exists s. split_and!; try done. by right.
Qed.

(** X25. Every operation keeps the statuses within [STATUS_CHOICES]: in a
    consistent state whose summaries all have one of the four statuses,
    the summaries after any upload, status read, retry or task run do
    too. *)
Theorem statuses_stay_valid (op : Operation) (w : World) :
  consistent w -> statuses_valid w -> statuses_valid (run env op w).
Proof.
  intros Hc Hvalid x Hx.
  destruct (run_rows op w x Hc Hx)
    as [Hold|[(-> & _)|[->|[(-> & _)|(s & _ & _ & _ & [(-> & _)| ->])]]]];
    [by apply Hvalid|..]; unfold Summary.STATUS_CHOICES;
    rewrite !elem_of_cons; tauto.
Qed.

(** X26. Every operation keeps the texts in step with the status: in a
    consistent state where only [complete] summaries have a short summary
    and [pending] and [processing] summaries have no text at all, the
    same holds after any operation. In particular a summary that ends
    [failed] has an empty short summary. *)
Theorem texts_stay_in_step (op : Operation) (w : World) :
  consistent w -> texts_follow_status w -> texts_follow_status (run env op w).
Proof.
  intros Hc Hinv x Hx.
  destruct (run_rows op w x Hc Hx)
    as [Hold|[(Hst & Hshort & Hdet)|[Hst|[(Hst & Hshort)|
              (s & Hs & Hsp & Hshort & [(Hst & Hdet)|Hst])]]]].
  - by apply Hinv.
  - by split.
  - rewrite Hst. split; [done|].
    intros [H|H]; vm_compute in H; discriminate H.
  - rewrite Hst. split; [done|].
    intros [H|H]; vm_compute in H; discriminate H.
  - destruct (Hinv s Hs) as [Hs1 Hs2]. split.
    + intros _. rewrite Hshort. apply Hs1. rewrite Hsp. lit_neq.
    + intros _. rewrite Hdet. apply Hs2. by left.
  - destruct (Hinv s Hs) as [Hs1 Hs2]. split.
    + intros _. rewrite Hshort. apply Hs1. rewrite Hsp. lit_neq.
    + rewrite Hst. intros [H|H]; vm_compute in H; discriminate H.
Qed.



End Correctness.

(** ** The states operations reach *)

Lemma consistent_World0 : consistent World0.
Proof.
  constructor; simpl.
  - intros k doc H. by rewrite lookup_empty in H.
  - intros s H. by apply elem_of_nil in H.
  - constructor.
  - intros s H. by apply elem_of_nil in H.
  - intros d. simpl. lia.
Qed.

(** Every state reached from the empty database by operations is
    consistent. *)
Lemma consistent_reachable (env : Env) (ops : list Operation) :
  consistent (foldl (fun w op => run env op w) World0 ops).
Proof.
  assert (H : forall w, consistent w ->
                        consistent (foldl (fun w op => run env op w) w ops)).
  { induction ops as [|op ops IH]; simpl; intros w Hc; [done|].
    apply IH. by apply run_step. }
  apply H, consistent_World0.
Qed.

Lemma consistent_pending_world : consistent pending_world.
Proof. apply (run_step fallback_env), consistent_World0. Qed.

Lemma consistent_failed_world : consistent failed_world.
Proof. apply (run_step crashing_env), consistent_World0. Qed.

(** ** The theorems at concrete inputs *)

Example pending_world_summaries :
  summaries pending_world =
    [{| Summary.id := 1; Summary.document := 1; Summary.short_summary := [];
        Summary.detailed_notes := []; Summary.status := lit "pending" |}]
  /\ celery_queue pending_world = [1].
Proof. split; reflexivity. Qed.

Example failed_world_summaries :
  summaries failed_world =
    [{| Summary.id := 1; Summary.document := 1; Summary.short_summary := [];
        Summary.detailed_notes := lit "Generation failed: model crashed";
        Summary.status := lit "failed" |}]
  /\ celery_queue failed_world = [].
Proof. split; reflexivity. Qed.

(** The extraction of [long_file] under the small limits: trimmed, then
    cut to ten characters. *)
Lemma extract_text_trims_then_cuts_witness :
  exists text,
    extract_text fallback_env long_file = Ok text
    /\ trimmed_of (lit "  hello world. this is. a test.  ")
         (strip (lit "  hello world. this is. a test.  "))
    /\ (MAX_EXTRACT_CHAR (settings fallback_env)
        < len (strip (lit "  hello world. this is. a test.  ")) ->
        len text = MAX_EXTRACT_CHAR (settings fallback_env)
        /\ text = take (Z.to_nat (MAX_EXTRACT_CHAR (settings fallback_env)))
                    (strip (lit "  hello world. this is. a test.  "))
        /\ text `prefix_of` strip (lit "  hello world. this is. a test.  "))
    /\ (len (strip (lit "  hello world. this is. a test.  "))
        <= MAX_EXTRACT_CHAR (settings fallback_env) ->
        text = strip (lit "  hello world. this is. a test.  ")).
Proof.
  apply (extract_text_trims_then_cuts fallback_env long_file
           (lit "  hello world. this is. a test.  ")).
  - vm_compute. discriminate.
  - reflexivity.
  - apply reads_txt; reflexivity.
Defined.

Example extract_text_long_file :
  extract_text fallback_env long_file = Ok (lit "hello worl").
Proof. reflexivity. Qed.

(** C1 as the claim states it fails at the threshold itself: with
    [AUTO_SUMMARY_MAX_CHAR] set to 5, a text of exactly 5 characters is
    summarized within the request; its summary is [complete], not
    [pending], and no task message is sent. *)
Lemma create_at_threshold_is_synchronous :
  exists resp w' summary,
    extract_text fallback_env threshold_file = Ok (lit "abcde")
    /\ len (lit "abcde") = 5
    /\ AUTO_SUMMARY_MAX_CHAR (settings fallback_env) = 5
    /\ AUTO_SUMMARY_MAX_CHAR (settings fallback_env) <= len (lit "abcde")
    /\ create fallback_env (request_of threshold_file) World0 = (Ok resp, w')
    /\ doc_summaries 1 w' = [summary]
    /\ Summary.status summary = lit "complete"
    /\ Summary.status summary <> lit "pending"
    /\ celery_queue w' = []
    /\ celery_queue w' <> celery_queue World0 ++ [1].
Proof.
  do 3 eexists.
  split; [reflexivity|].
  split; [reflexivity|].
  split; [reflexivity|].
  split; [vm_compute; discriminate|].
  split; [vm_compute; reflexivity|].
  split; [vm_compute; reflexivity|].
  split; [vm_compute; reflexivity|].
  split; [vm_compute; discriminate|].
  split; [vm_compute; reflexivity|].
  vm_compute; discriminate.
Qed.

(** The upload of [long_file] under the small limits: ten characters are
    kept, more than the threshold of five, and the summary is deferred. *)
Lemma create_above_threshold_defers_witness :
  consistent World0
  /\ extract_text fallback_env long_file = Ok (lit "hello worl")
  /\ AUTO_SUMMARY_MAX_CHAR (settings fallback_env) < len (lit "hello worl")
  /\ exists resp w' summary,
       create fallback_env (request_of long_file) World0 = (Ok resp, w')
       /\ status_code resp = HTTP_201_CREATED
       /\ doc_summaries 1 w' = [summary]
       /\ Summary.status summary = lit "pending"
       /\ Summary.short_summary summary = []
       /\ Summary.detailed_notes summary = []
       /\ celery_queue w' = [1]
       /\ pipeline_calls w' = [].
Proof.
  split; [apply consistent_World0|].
  split; [reflexivity|].
  split; [reflexivity|].
  destruct (create_above_threshold_defers fallback_env (request_of long_file)
              long_file (lit "hello worl") World0 consistent_World0
              eq_refl eq_refl eq_refl eq_refl)
    as (resp & w' & summary & Hrun & Hcode & _ & _ & Hrows & Hst & Hshort & Hdet
        & Hqueue & Hcalls).
  exists resp, w', summary. by split_and!.
Defined.

(** The upload of [short_file]: three characters, summarized within the
    request by the fallback. *)
Lemma create_up_to_threshold_summarizes_inline_witness :
  consistent World0
  /\ extract_text fallback_env short_file = Ok (lit "abc")
  /\ len (lit "abc") <= AUTO_SUMMARY_MAX_CHAR (settings fallback_env)
  /\ exists resp w' summary,
       create fallback_env (request_of short_file) World0 = (Ok resp, w')
       /\ status_code resp = HTTP_201_CREATED
       /\ doc_summaries 1 w' = [summary]
       /\ celery_queue w' = []
       /\ (Summary.status summary = lit "complete"
           \/ Summary.status summary = lit "failed").
Proof.
  split; [apply consistent_World0|].
  split; [reflexivity|].
  split; [vm_compute; discriminate|].
  destruct (create_up_to_threshold_summarizes_inline fallback_env
              (request_of short_file) short_file (lit "abc") World0
              consistent_World0 eq_refl eq_refl eq_refl)
    as (resp & w' & summary & Hrun & Hcode & _ & _ & Hrows & Hqueue & Hst & _).
  { vm_compute. discriminate. }
  exists resp, w', summary. by split_and!.
Defined.

Example create_short_file_runs_fallback :
  summaries (run fallback_env (OpCreate (request_of short_file)) World0) =
    [{| Summary.id := 1; Summary.document := 1;
        Summary.short_summary := lit "abc";
        Summary.detailed_notes := lit "- abc";
        Summary.status := lit "complete" |}].
Proof. reflexivity. Qed.

(** The upload of [short_file] when every call of the pipeline raises. *)
Lemma create_isolates_summarization_failure_witness :
  consistent World0
  /\ exists resp w' summary,
       create crashing_env (request_of short_file) World0 = (Ok resp, w')
       /\ status_code resp = HTTP_201_CREATED
       /\ doc_summaries 1 w' = [summary]
       /\ Summary.status summary = lit "failed"
       /\ Summary.short_summary summary = []
       /\ Summary.detailed_notes summary = lit "Generation failed: model crashed"
       /\ celery_queue w' = [].
Proof.
  split; [apply consistent_World0|].
  destruct (create_isolates_summarization_failure crashing_env
              (request_of short_file) short_file (lit "abc") World0
              (snd (generate_document_summaries crashing_env (lit "abc")
                      (set_documents
                         (insert 1 {| Document.id := 1; Document.user := 7;
                                      Document.original_filename := lit "a.txt";
                                      Document.text_content := lit "abc" |})
                         2 World0)))
              model_crashed consistent_World0 eq_refl eq_refl eq_refl)
    as (resp & w' & summary & Hrun & Hcode & _ & _ & Hrows & Hst & Hshort & Hdet
        & Hqueue).
  { vm_compute. discriminate. }
  { reflexivity. }
  exists resp, w', summary. by split_and!.
Defined.

(** Retrying document 1 of [failed_world]. *)
Lemma retry_summary_only_from_failed_witness :
  consistent failed_world
  /\ exists resp w',
       retry_summary bare_request 1 failed_world = (Ok resp, w')
       /\ status_code resp = HTTP_200_OK
       /\ doc_summaries 1 w' =
            [{| Summary.id := 1; Summary.document := 1;
                Summary.short_summary := []; Summary.detailed_notes := [];
                Summary.status := lit "pending" |}]
       /\ celery_queue w' = [1].
Proof.
  split; [apply consistent_failed_world|].
  destruct (retry_summary_only_from_failed bare_request 1 failed_world
              consistent_failed_world) as (_ & _ & Hfailed).
  destruct (Hfailed
              {| Document.id := 1; Document.user := 7;
                 Document.original_filename := lit "a.txt";
                 Document.text_content := lit "abc" |}
              {| Summary.id := 1; Summary.document := 1;
                 Summary.short_summary := [];
                 Summary.detailed_notes := lit "Generation failed: model crashed";
                 Summary.status := lit "failed" |}
              eq_refl eq_refl eq_refl eq_refl)
    as (resp & w' & Hrun & Hcode & Hrows & _ & _ & Hqueue).
  exists resp, w'. by split_and!.
Defined.

(** Retrying document 1 of [pending_world] is refused and changes
    nothing. *)
Example retry_summary_pending_refused :
  retry_summary bare_request 1 pending_world =
    (Ok {| data := Detail (lit "Summary is not in failed state");
           status_code := HTTP_400_BAD_REQUEST |}, pending_world).
Proof. reflexivity. Qed.

(** Running the task twice for document 1 of [pending_world]: the second
    run changes nothing. *)
Lemma task_is_idempotent_witness :
  consistent pending_world
  /\ exists r1 w1 msg,
       generate_document_summary_async fallback_env 1 pending_world = (r1, w1)
       /\ w1 <> pending_world
       /\ generate_document_summary_async fallback_env 1 w1 = (Ok msg, w1).
Proof.
  split; [apply consistent_pending_world|].
  destruct (task_is_idempotent fallback_env 1 pending_world) as [_ Hsecond].
  pose proof (surjective_pairing
                (generate_document_summary_async fallback_env 1 pending_world))
    as Hpair.
  destruct (Hsecond consistent_pending_world _ _ Hpair) as [msg Hmsg].
  exists (fst (generate_document_summary_async fallback_env 1 pending_world)),
    (snd (generate_document_summary_async fallback_env 1 pending_world)), msg.
  split_and!; [exact Hpair| |exact Hmsg].
  intros Heq. apply (f_equal pipeline_cached) in Heq. vm_compute in Heq.
  discriminate Heq.
Defined.

Example task_completes_pending_world :
  summaries (run fallback_env (OpTask 1) pending_world) =
    [{| Summary.id := 1; Summary.document := 1;
        Summary.short_summary := lit "hello worl";
        Summary.detailed_notes := lit "- hello worl";
        Summary.status := lit "complete" |}].
Proof. reflexivity. Qed.

(** The invariant along the operations on [pending_world], and the one
    summary of the document an upload stores. *)
Lemma one_summary_per_document_invariant_witness :
  consistent pending_world
  /\ one_summary_per_document (run fallback_env (OpTask 1) pending_world)
  /\ one_summary_per_document
       (run fallback_env (OpCreate (request_of short_file)) pending_world)
  /\ length (doc_summaries 2
               (run fallback_env (OpCreate (request_of short_file)) pending_world))
     = 1%nat.
Proof.
  split; [apply consistent_pending_world|].
  destruct (one_summary_per_document_invariant fallback_env pending_world
              consistent_pending_world) as [Hops Hcreate].
  split; [apply (Hops (OpTask 1))|].
  split; [apply (Hops (OpCreate (request_of short_file)))|].
  destruct (Hcreate (request_of short_file)
              (match fst (create fallback_env (request_of short_file) pending_world)
               with Ok resp => resp | Raise _ => {| data := Detail []; status_code := 0 |}
               end)
              (snd (create fallback_env (request_of short_file) pending_world)))
    as (doc & summary & Hdata & _ & _ & _ & Hlen).
  - reflexivity.
  - reflexivity.
  - injection Hdata as <- _. exact Hlen.
Defined.

(** A text of blanks. *)
Lemma summarize_empty_text_short_circuits_witness :
  strip (lit "   ") = []
  /\ exists result w',
       summarize fallback_env (lit "   ") (lit "both") World0 = (Ok result, w')
       /\ result !! lit "short_summary" = Some []
       /\ result !! lit "detailed_notes" = Some []
       /\ pipeline_calls w' = [].
Proof.
  split; [reflexivity|].
  destruct (summarize_empty_text_short_circuits fallback_env (lit "   ") World0
              eq_refl)
    as (result & w' & Hrun & Hshort & Hdet & Hcalls & _).
  exists result, w'. by split_and!.
Defined.

(** The mode [bullets] is none of the three. *)
Lemma summarize_unknown_mode_returns_empty_dict_witness :
  strip (lit "hello. world") <> []
  /\ exists result w',
       summarize fallback_env (lit "hello. world") (lit "bullets") World0
         = (Ok result, w')
       /\ result !! lit "short_summary" = None
       /\ result !! lit "detailed_notes" = None
       /\ pipeline_calls w' = [].
Proof.
  split; [vm_compute; discriminate|].
  destruct (summarize_unknown_mode_returns_empty_dict fallback_env
              (lit "hello. world") (lit "bullets") World0)
    as (result & w' & Hrun & _ & Hshort & Hdet & Hcalls);
    try (vm_compute; discriminate).
  exists result, w'. by split_and!.
Defined.

(** The task on document 1 of [pending_world] when the pipeline raises:
    the summary ends [failed] with the short summary it had. *)
Lemma task_failure_keeps_short_summary_witness :
  consistent pending_world
  /\ exists msg w',
       generate_document_summary_async crashing_env 1 pending_world = (Ok msg, w')
       /\ doc_summaries 1 w' =
            [{| Summary.id := 1; Summary.document := 1;
                Summary.short_summary := [];
                Summary.detailed_notes := lit "Generation failed: model crashed";
                Summary.status := lit "failed" |}].
Proof.
  split; [apply consistent_pending_world|].
  destruct (task_failure_keeps_short_summary crashing_env 1 model_crashed)
    as [_ Htask].
  destruct (Htask
              {| Document.id := 1; Document.user := 7;
                 Document.original_filename := lit "Notes.TXT";
                 Document.text_content := lit "hello worl" |}
              {| Summary.id := 1; Summary.document := 1;
                 Summary.short_summary := []; Summary.detailed_notes := [];
                 Summary.status := lit "pending" |}
              pending_world
              (snd (generate_document_summaries crashing_env (lit "hello worl")
                      (set_summaries
                         (update_row
                            {| Summary.id := 1; Summary.document := 1;
                               Summary.short_summary := [];
                               Summary.detailed_notes := [];
                               Summary.status := lit "processing" |}
                            (summaries pending_world))
                         (next_summary_id pending_world) pending_world)))
              consistent_pending_world eq_refl eq_refl eq_refl eq_refl)
    as (msg & w' & Hrun & Hrows).
  { vm_compute. discriminate. }
  exists msg, w'. by split_and!.
Defined.

(** ** The further properties at concrete inputs *)

Example blank_docx_paragraphs :
  docx_paragraph_texts fallback_env (UploadedFile.content blank_docx)
  = Ok [[32; 32]; [32]; [9]]%N.
Proof. reflexivity. Qed.

Lemma extract_text_bounded_witness :
  extract_text fallback_env long_file = Ok (lit "hello worl")
  /\ len (lit "hello worl") <= 10
  /\ (forall c, head (lit "hello worl") = Some c -> isspace c = false).
Proof.
  split; [reflexivity|].
  apply (extract_text_bounded fallback_env long_file (lit "hello worl")).
  - vm_compute. discriminate.
  - reflexivity.
Defined.

Lemma extract_text_blank_docx_witness :
  _read_docx fallback_env blank_docx = Ok []
  /\ extract_text fallback_env blank_docx = Ok [].
Proof.
  apply (extract_text_blank_docx fallback_env blank_docx [[32; 32]; [32]; [9]]%N).
  - reflexivity.
  - reflexivity.
  - reflexivity.
  - repeat constructor.
Defined.

Lemma SimpleFallback_bounded_witness :
  exists out,
    SimpleFallback (lit " one. two. three. ") 9 0 = Ok out
    /\ out = lit "one.  two"
    /\ len out <= 9.
Proof.
  destruct (SimpleFallback_bounded (lit " one. two. three. ") 9 0)
    as (out & Hrun & Hlen & _); [vm_compute; discriminate|].
  exists out. split; [exact Hrun|]. split; [|exact Hlen].
  vm_compute in Hrun. by injection Hrun as <-.
Defined.

Lemma bullets_of_marker_witness :
  bullets_of (lit " . .. ") = lit "- "
  /\ bullets_of (lit "One thing. Another thing.") = lit "- One thing
- Another thing".
Proof.
  split; [|reflexivity].
  destruct (bullets_of_marker (lit " . .. ")) as (_ & _ & Hlone).
  apply Hlone. repeat constructor.
Defined.

Lemma summarize_short_mode_witness :
  exists result w',
    summarize fallback_env (lit " hello. world ") (lit "short") World0
      = (Ok result, w')
    /\ result !! lit "short_summary" = Some (lit "hello.  world")
    /\ result !! lit "detailed_notes" = Some []
    /\ length (pipeline_calls w') = 1%nat.
Proof.
  destruct (summarize_short_mode fallback_env (lit " hello. world ")
              (lit "hello.  world") World0)
    as (result & w' & Hrun & Hshort & Hdet & Hcalls);
    [vm_compute; discriminate|reflexivity|].
  exists result, w'. split_and!; [done..|]. by rewrite Hcalls.
Defined.

Lemma summarize_detailed_mode_witness :
  exists result w',
    summarize fallback_env (lit " hello. world ") (lit "detailed") World0
      = (Ok result, w')
    /\ result !! lit "short_summary" = Some []
    /\ result !! lit "detailed_notes" = Some (lit "- hello
- world")
    /\ length (pipeline_calls w') = 1%nat.
Proof.
  destruct (summarize_detailed_mode fallback_env (lit " hello. world ")
              (lit "hello.  world") World0)
    as (result & w' & Hrun & Hshort & Hdet & Hcalls);
    [vm_compute; discriminate|reflexivity|].
  exists result, w'. split_and!; [done..|]. by rewrite Hcalls.
Defined.

Lemma summarize_both_mode_witness :
  exists result w',
    summarize fallback_env (lit " hello. world ") (lit "both") World0
      = (Ok result, w')
    /\ result !! lit "short_summary" = Some (lit "hello.  world")
    /\ result !! lit "detailed_notes" = Some (lit "- hello
- world")
    /\ map call_max_length (pipeline_calls w') = [60; 180].
Proof.
  destruct (summarize_both_mode fallback_env (lit " hello. world ")
              (lit "hello.  world") (lit "hello.  world") World0)
    as (result & w' & Hrun & Hshort & Hdet & Hcalls);
    [vm_compute; discriminate|reflexivity..|].
  exists result, w'. split_and!; [done..|]. by rewrite Hcalls.
Defined.

Lemma summarize_both_failure_witness :
  (exists w', summarize crashing_env (lit "hello") (lit "both") World0
                = (Raise model_crashed, w')
              /\ length (pipeline_calls w') = 1%nat)
  /\ (exists w', summarize half_env (lit "hello") (lit "both") World0
                   = (Raise model_crashed, w')
                 /\ length (pipeline_calls w') = 2%nat).
Proof.
  split.
  - destruct (summarize_both_failure crashing_env (lit "hello") model_crashed World0)
      as [Hfirst _]; [vm_compute; discriminate|].
    destruct (Hfirst eq_refl) as (w' & Hrun & Hcalls).
    exists w'. split; [done|]. by rewrite Hcalls.
  - destruct (summarize_both_failure half_env (lit "hello") model_crashed World0)
      as [_ Hsecond]; [vm_compute; discriminate|].
    destruct (Hsecond (lit "hello") eq_refl eq_refl) as (w' & Hrun & Hcalls).
    exists w'. split; [done|]. by rewrite Hcalls.
Defined.

Lemma summarize_known_modes_have_both_keys_witness :
  exists result w',
    summarize fallback_env (lit "hello") (lit "short") World0 = (Ok result, w')
    /\ is_Some (result !! lit "short_summary")
    /\ is_Some (result !! lit "detailed_notes").
Proof.
  pose proof (surjective_pairing
                (summarize fallback_env (lit "hello") (lit "short") World0)) as Hrun.
  destruct (fst (summarize fallback_env (lit "hello") (lit "short") World0))
    as [result|e] eqn:Hfst; [|vm_compute in Hfst; discriminate Hfst].
  destruct (summarize_known_modes_have_both_keys fallback_env (lit "hello")
              (lit "short") result World0 _ (or_introl eq_refl) Hrun)
    as [Hshort Hdet].
  exists result,
    (snd (summarize fallback_env (lit "hello") (lit "short") World0)).
  by split_and!.
Defined.

Lemma summarize_with_fallback_never_raises_witness :
  transformers_pipeline fallback_env = None
  /\ exists result w',
       summarize fallback_env (lit "hello") (lit "anything") World0
         = (Ok result, w').
Proof.
  split; [reflexivity|].
  apply (summarize_with_fallback_never_raises fallback_env). reflexivity.
Defined.

Lemma generate_document_summaries_returns_witness :
  exists w',
    generate_document_summaries fallback_env (lit " hello. world ") World0
      = (Ok (lit "hello.  world", lit "- hello
- world"), w')
    /\ map call_max_length (pipeline_calls w') = [60; 180].
Proof.
  eexists. split; [reflexivity|].
  destruct (generate_document_summaries_returns fallback_env
              (lit " hello. world ") (lit "hello.  world") (lit "- hello
- world") World0 _ eq_refl) as [_ Hnonblank].
  destruct Hnonblank as (_ & _ & _ & Hcalls); [vm_compute; discriminate|].
  by rewrite Hcalls.
Defined.


Example create_unsupported_file :
  create fallback_env (request_of (upload "a.exe" "abc")) pending_world =
    (Ok {| data := Detail (lit "Unable to process file: Unsupported file type. Supported formats: PDF, DOCX, TXT");
           status_code := HTTP_400_BAD_REQUEST |}, pending_world).
Proof. reflexivity. Qed.

Lemma create_keeps_what_was_stored_witness :
  doc_summaries 1
    (snd (create fallback_env (request_of short_file) pending_world))
  = doc_summaries 1 pending_world
  /\ celery_queue pending_world
     `prefix_of` celery_queue
                   (snd (create fallback_env (request_of short_file) pending_world)).
Proof.
  destruct (create_keeps_what_was_stored fallback_env (request_of short_file)
              pending_world consistent_pending_world)
    as (_ & Hrows & _ & Hqueue).
  split; [|exact Hqueue]. apply Hrows. vm_compute. discriminate.
Defined.

Lemma create_blank_document_witness :
  extract_text fallback_env blank_file = Ok []
  /\ exists resp w',
       create fallback_env (request_of blank_file) World0 = (Ok resp, w')
       /\ status_code resp = HTTP_201_CREATED
       /\ doc_summaries 1 w' =
            [{| Summary.id := 1; Summary.document := 1;
                Summary.short_summary := []; Summary.detailed_notes := [];
                Summary.status := lit "complete" |}]
       /\ pipeline_calls w' = []
       /\ celery_queue w' = [].
Proof.
  split; [reflexivity|].
  apply (create_blank_document fallback_env (request_of blank_file) blank_file
           World0 consistent_World0).
  - vm_compute. discriminate.
  - reflexivity.
  - reflexivity.
  - reflexivity.
Defined.

Lemma other_users_document_is_not_found_witness :
  retrieve_summary stranger_request 1 failed_world =
    (Ok {| data := Detail (lit "Not found"); status_code := HTTP_404_NOT_FOUND |},
     failed_world)
  /\ retry_summary stranger_request 1 failed_world =
       (Ok {| data := Detail (lit "Not found"); status_code := HTTP_404_NOT_FOUND |},
        failed_world).
Proof.
  apply other_users_document_is_not_found. right.
  exists {| Document.id := 1; Document.user := 7;
            Document.original_filename := lit "a.txt";
            Document.text_content := lit "abc" |}.
  split; [reflexivity|]. vm_compute. discriminate.
Defined.

Lemma retrieve_summary_reads_witness :
  exists message,
    retrieve_summary bare_request 1 failed_world =
      (Ok {| data := SummaryData 1 (lit "failed") []
                       (lit "Generation failed: model crashed") message;
             status_code := HTTP_200_OK |}, failed_world)
    /\ message <> None.
Proof.
  destruct (retrieve_summary_reads bare_request 1 failed_world) as [_ Hread].
  destruct (Hread
              {| Document.id := 1; Document.user := 7;
                 Document.original_filename := lit "a.txt";
                 Document.text_content := lit "abc" |}
              {| Summary.id := 1; Summary.document := 1;
                 Summary.short_summary := [];
                 Summary.detailed_notes := lit "Generation failed: model crashed";
                 Summary.status := lit "failed" |}
              eq_refl eq_refl eq_refl) as (message & Hrun & Hmessage).
  exists message. split; [exact Hrun|].
  intros Hnone. apply Hmessage in Hnone as (_ & _ & Hfailed). by apply Hfailed.
Defined.

Lemma task_never_raises_witness :
  consistent pending_world
  /\ exists msg w',
       generate_document_summary_async crashing_env 1 pending_world = (Ok msg, w').
Proof.
  split; [apply consistent_pending_world|].
  apply (task_never_raises crashing_env), consistent_pending_world.
Defined.

Lemma task_completes_pending_summary_witness :
  exists msg w',
    generate_document_summary_async fallback_env 1 pending_world = (Ok msg, w')
    /\ doc_summaries 1 w' =
         [{| Summary.id := 1; Summary.document := 1;
             Summary.short_summary := lit "hello worl";
             Summary.detailed_notes := lit "- hello worl";
             Summary.status := lit "complete" |}]
    /\ celery_queue w' = [1].
Proof.
  destruct (task_completes_pending_summary fallback_env 1
              {| Document.id := 1; Document.user := 7;
                 Document.original_filename := lit "Notes.TXT";
                 Document.text_content := lit "hello worl" |}
              {| Summary.id := 1; Summary.document := 1;
                 Summary.short_summary := []; Summary.detailed_notes := [];
                 Summary.status := lit "pending" |}
              (lit "hello worl") (lit "hello worl") pending_world
              consistent_pending_world eq_refl eq_refl eq_refl)
    as (msg & w' & Hrun & Hrows & _ & Hqueue & _);
    [vm_compute; discriminate|reflexivity..|].
  exists msg, w'. by split_and!.
Defined.

Lemma task_touches_one_document_witness :
  let w := snd (create fallback_env (request_of long_file) pending_world) in
  doc_summaries 1 (snd (generate_document_summary_async fallback_env 2 w))
  = doc_summaries 1 w
  /\ celery_queue (snd (generate_document_summary_async fallback_env 2 w)) = [1; 2].
Proof.
  cbv zeta.
  destruct (task_touches_one_document fallback_env 2
              (snd (create fallback_env (request_of long_file) pending_world)))
    as (_ & Hqueue & _ & Hrows).
  { apply (create_step fallback_env), consistent_pending_world. }
  split; [apply Hrows; vm_compute; discriminate|].
  by rewrite Hqueue.
Defined.

Lemma deferred_upload_then_task_witness :
  exists resp w1 msg w2,
    create fallback_env (request_of long_file) World0 = (Ok resp, w1)
    /\ celery_queue w1 = [1]
    /\ generate_document_summary_async fallback_env 1 w1 = (Ok msg, w2)
    /\ doc_summaries 1 w2 =
         [{| Summary.id := 1; Summary.document := 1;
             Summary.short_summary := lit "hello worl";
             Summary.detailed_notes := lit "- hello worl";
             Summary.status := lit "complete" |}].
Proof.
  apply (deferred_upload_then_task fallback_env (request_of long_file) long_file
           (lit "hello worl") (lit "hello worl") (lit "hello worl") World0
           consistent_World0); try reflexivity.
  vm_compute. discriminate.
Defined.

Lemma retry_then_task_recovers_witness :
  exists resp w1 msg w2,
    retry_summary bare_request 1 failed_world = (Ok resp, w1)
    /\ status_code resp = HTTP_200_OK
    /\ celery_queue w1 = [1]
    /\ generate_document_summary_async fallback_env 1 w1 = (Ok msg, w2)
    /\ doc_summaries 1 w2 =
         [{| Summary.id := 1; Summary.document := 1;
             Summary.short_summary := lit "abc";
             Summary.detailed_notes := lit "- abc";
             Summary.status := lit "complete" |}].
Proof.
  apply (retry_then_task_recovers fallback_env bare_request 1
           {| Document.id := 1; Document.user := 7;
              Document.original_filename := lit "a.txt";
              Document.text_content := lit "abc" |}
           {| Summary.id := 1; Summary.document := 1;
              Summary.short_summary := [];
              Summary.detailed_notes := lit "Generation failed: model crashed";
              Summary.status := lit "failed" |}
           (lit "abc") (lit "abc") failed_world consistent_failed_world);
    try reflexivity.
  vm_compute. discriminate.
Defined.

Lemma pending_world_tidy :
  statuses_valid pending_world
  /\ texts_follow_status pending_world
  /\ queue_names_documents pending_world.
Proof.
  split_and!.
  - intros s Hs. apply list_elem_of_singleton in Hs as ->.
    unfold Summary.STATUS_CHOICES. simpl. left.
  - intros s Hs. apply list_elem_of_singleton in Hs as ->. by split.
  - intros d Hd. apply list_elem_of_singleton in Hd as ->. by eexists.
Qed.

Lemma statuses_stay_valid_witness :
  statuses_valid pending_world
  /\ statuses_valid (run crashing_env (OpTask 1) pending_world)
  /\ map Summary.status (summaries (run crashing_env (OpTask 1) pending_world))
     = [lit "failed"].
Proof.
  split; [apply pending_world_tidy|].
  split; [|reflexivity].
  apply (statuses_stay_valid crashing_env (OpTask 1) pending_world).
  - apply consistent_pending_world.
  - apply pending_world_tidy.
Defined.

Lemma texts_stay_in_step_witness :
  texts_follow_status pending_world
  /\ texts_follow_status (run crashing_env (OpTask 1) pending_world)
  /\ map Summary.short_summary
       (summaries (run crashing_env (OpTask 1) pending_world)) = [[]].
Proof.
  split; [apply pending_world_tidy|].
  split; [|reflexivity].
  apply (texts_stay_in_step crashing_env (OpTask 1) pending_world).
  - apply consistent_pending_world.
  - apply pending_world_tidy.
Defined.


